(** * agri_lib: crop manager, portfolio analyzer and standalone estimator

    A shallow embedding of [agri_lib/crop_manager.py] and of
    [calculate_yield_estimate] from [agri_lib/utils.py].

    - Python [float] is IEEE-754 binary64; it is modelled by [spec_float]
      with precision 53 and maximal exponent 1024, so every arithmetic
      operation below rounds exactly as the interpreter does.
    - Python [str] is modelled by [string]; [dict] by stdpp's [gmap].
    - Methods that read or write an object are computations in a small
      state-and-exception monad [M]; a raised exception leaves the state
      as it was when the [raise] statement was reached.
    - [datetime.now()] is an explicit argument [now]. *)

From Stdlib Require Import ZArith String Ascii Bool List Lia.
From Stdlib Require Import Floats.SpecFloat.
From stdpp Require Import base option gmap strings list.

Local Open Scope string_scope.

(** ** Python floats *)

Module Float.

Definition float : Type := spec_float.

Definition prec : Z := 53.
Definition emax : Z := 1024.

Definition add : float -> float -> float := SFadd prec emax.
Definition mul : float -> float -> float := SFmul prec emax.
Definition div : float -> float -> float := SFdiv prec emax.

(** Comparisons; each is [false] as soon as an operand is NaN. *)
Definition eqb : float -> float -> bool := SFeqb.
Definition ltb : float -> float -> bool := SFltb.
Definition leb : float -> float -> bool := SFleb.

(** [float(z)] for a Python [int]: the nearest binary64, ties to even. *)
Definition of_int (z : Z) : float := binary_normalize prec emax z 0 false.

(** The literal [n * 10^-k], for instance [lit 35 1] for [3.5]: the
    binary64 nearest to the decimal, which the correctly rounded division
    of two exactly representable integers yields. *)
Definition lit (n : Z) (k : nat) : float :=
  div (of_int n) (of_int (10 ^ Z.of_nat k)).

Definition zero : float := S754_zero false.

(** The binary64 nearest to [n / d] for arbitrary integers [0 < n],
    [0 < d], with sign [s]: what [strtod] returns on a decimal string. *)
Definition of_ratio (s : bool) (n d : Z) : float :=
  let '(q, e, l) := SFdiv_core_binary prec emax n 0 d 0 in
  binary_round_aux prec emax s q e l.

(** Nearest integer to [n / d] for [0 < d], ties to even. *)
Definition div_half_even (n d : Z) : Z :=
  let q := (n / d)%Z in
  match (2 * (n mod d) ?= d)%Z with
  | Lt => q
  | Gt => (q + 1)%Z
  | Eq => if Z.even q then q else (q + 1)%Z
  end.

(** [round(x, ndigits)] for [ndigits >= 0]. CPython prints the exact
    binary value of [x] with [ndigits] correctly rounded decimals
    (ties to even) and reads the string back; NaN and the infinities
    round to themselves. *)
Definition round (x : float) (ndigits : nat) : float :=
  match x with
  | S754_finite s m e =>
      let scale := (10 ^ Z.of_nat ndigits)%Z in
      let n :=
        match e with
        | Zneg p => div_half_even (scale * Zpos m) (2 ^ Zpos p)
        | _ => (scale * Zpos m * 2 ^ e)%Z
        end in
      match n with
      | Z0 => S754_zero s
      | _ => of_ratio s n scale
      end
  | _ => x
  end.

(** [sum(xs)]: the items are added one after the other, starting from
    [0], each addition rounded to binary64 (CPython up to 3.11; later
    versions also carry a compensation term). *)
Definition sum (xs : list float) : float := fold_left add xs zero.

End Float.

Abbreviation float := Float.float.

(** ** Python strings *)

Definition lower_ascii (c : ascii) : ascii :=
  let n := nat_of_ascii c in
  if (65 <=? n)%nat && (n <=? 90)%nat then ascii_of_nat (n + 32) else c.

(** The UTF-8 bytes E2 84 AA of U+212A KELVIN SIGN, the one code point
    outside ASCII whose lowercase is an ASCII letter ([k]). *)
Definition kelvin_sign (c0 c1 c2 : ascii) : bool :=
  Ascii.eqb c0 "226" && Ascii.eqb c1 "132" && Ascii.eqb c2 "170".

(** [s.lower()] on a UTF-8 string, as far as comparison with ASCII keys
    goes: the letters A-Z and the Kelvin sign become ASCII lowercase
    letters; every other code point is kept, and its lowercase in Python
    is not ASCII either. *)
Fixpoint lower (s : string) : string :=
  match s with
  | EmptyString => EmptyString
  | String c s' =>
      match s' with
      | String c1 (String c2 s'') =>
          if kelvin_sign c c1 c2 then String "k" (lower s'')
          else String (lower_ascii c) (lower s')
      | _ => String (lower_ascii c) (lower s')
      end
  end.

(** ** Exceptions and the state monad *)

Inductive exn : Type :=
| ValueError (msg : string)
| KeyError (key : string).

Inductive result (A : Type) : Type :=
| Ok (a : A)
| Raise (e : exn).

Arguments Ok {A} a.
Arguments Raise {A} e.

(** A computation over a mutable object of type [S]. *)
Definition M (S A : Type) : Type := S -> result A * S.

Definition ret {S A : Type} (a : A) : M S A := fun s => (Ok a, s).

Definition bind {S A B : Type} (c : M S A) (k : A -> M S B) : M S B :=
  fun s =>
    match c s with
    | (Ok a, s') => k a s'
    | (Raise e, s') => (Raise e, s')
    end.

Definition raise {S A : Type} (e : exn) : M S A := fun s => (Raise e, s).

Definition gets {S A : Type} (f : S -> A) : M S A := fun s => (Ok (f s), s).

Definition modify {S : Type} (f : S -> S) : M S unit := fun s => (Ok tt, f s).

(** An expression that may raise but touches no object. *)
Definition lift {S A : Type} (r : result A) : M S A := fun s => (r, s).

Notation "'let!' x ':=' c 'in' k" := (bind c (fun x => k))
  (at level 10, x name, c at level 200, k at level 200).

(** [[f(x) for x in xs]] where [f] may raise: stops at the first failure. *)
Fixpoint map_result {A B : Type} (f : A -> result B) (xs : list A)
  : result (list B) :=
  match xs with
  | [] => Ok []
  | x :: xs' =>
      match f x with
      | Ok y =>
          match map_result f xs' with
          | Ok ys => Ok (y :: ys)
          | Raise e => Raise e
          end
      | Raise e => Raise e
      end
  end.

(** ** Python dicts with string keys *)

(** [d[k]] *)
Definition dict_item {V : Type} (d : gmap string V) (k : string) : result V :=
  match d !! k with
  | Some v => Ok v
  | None => Raise (KeyError k)
  end.

(** [d.get(k, dflt)] *)
Definition dict_get {V : Type} (d : gmap string V) (k : string) (dflt : V) : V :=
  default dflt (d !! k).

(** ** The clock *)

(** A naive [datetime]: microseconds on the local time line, and the
    calendar month the interpreter reports for it. *)
Record datetime : Type := { ticks : Z; month : Z }.

(** [(a - b).days] *)
Definition days_between (a b : datetime) : Z :=
  ((ticks a - ticks b) / 86400000000)%Z.

(** ** Plant entities *)

(** *** [class BasePlant(ABC)]: the fields and the concrete methods *)

Module BasePlant.

Record t : Type := Build {
  _name : string;
  _area : float;
  _planting_date : datetime;
  _status : string
}.

Definition __init__ (now : datetime) (name : string) (area : float) : t :=
  {| _name := name; _area := area; _planting_date := now;
     _status := "planted" |}.

Definition name (self : t) : string := _name self.

Definition area (self : t) : float := _area self.

Definition set_area (value : float) : M t unit :=
  if Float.leb value (Float.of_int 0) then
    raise (ValueError "Area must be positive")
  else
    modify (fun self =>
      {| _name := _name self; _area := value;
         _planting_date := _planting_date self; _status := _status self |}).

Definition status (self : t) : string := _status self.

Definition valid_statuses : list string :=
  ["planted"; "growing"; "harvesting"; "harvested"; "dormant"].

Definition set_status (value : string) : M t unit :=
  if bool_decide (value ∈ valid_statuses) then
    modify (fun self =>
      {| _name := _name self; _area := _area self;
         _planting_date := _planting_date self; _status := value |})
  else
    raise (ValueError
      "Status must be one of ['planted', 'growing', 'harvesting', 'harvested', 'dormant']").

Definition days_since_planting (now : datetime) (self : t) : Z :=
  days_between now (_planting_date self).

End BasePlant.

(** *** [class Crop(BasePlant)] *)

Module Crop.

Record t : Type := Build { base : BasePlant.t; _crop_subtype : string }.

Definition YIELD_RATES : gmap string float :=
  list_to_map
    [("wheat", Float.lit 35 1); ("corn", Float.lit 100 1);
     ("rice", Float.lit 45 1); ("potato", Float.lit 400 1);
     ("soybean", Float.lit 28 1); ("cotton", Float.lit 18 1);
     ("default", Float.lit 50 1)].

Definition __init__ (now : datetime) (name : string) (area : float)
    (crop_subtype : string) : t :=
  {| base := BasePlant.__init__ now name area;
     _crop_subtype := lower crop_subtype |}.

Definition get_yield_estimate (self : t) : result float :=
  match dict_item YIELD_RATES "default" with
  | Ok dflt =>
      let rate := dict_get YIELD_RATES (_crop_subtype self) dflt in
      Ok (Float.mul (BasePlant._area (base self)) rate)
  | Raise e => Raise e
  end.

Definition get_type (self : t) : string := "agriculture".

Definition water_needs : gmap string Z :=
  list_to_map
    [("wheat", 4500%Z); ("corn", 5000%Z); ("rice", 12000%Z);
     ("potato", 5000%Z); ("soybean", 4500%Z); ("cotton", 7000%Z);
     ("default", 5000%Z)].

Definition get_water_requirement (self : t) : result float :=
  match dict_item water_needs "default" with
  | Ok dflt =>
      let rate := dict_get water_needs (_crop_subtype self) dflt in
      Ok (Float.mul (BasePlant._area (base self)) (Float.of_int rate))
  | Raise e => Raise e
  end.

End Crop.

(** *** [class Forest(BasePlant)] *)

Module Forest.

Record t : Type := Build { base : BasePlant.t; _tree_type : string }.

Definition TIMBER_RATES : gmap string float :=
  list_to_map
    [("pine", Float.lit 150 1); ("oak", Float.lit 80 1);
     ("eucalyptus", Float.lit 250 1); ("teak", Float.lit 100 1);
     ("bamboo", Float.lit 200 1); ("default", Float.lit 120 1)].

Definition __init__ (now : datetime) (name : string) (area : float)
    (tree_type : string) : t :=
  {| base := BasePlant.__init__ now name area;
     _tree_type := lower tree_type |}.

Definition get_yield_estimate (self : t) : result float :=
  match dict_item TIMBER_RATES "default" with
  | Ok dflt =>
      let rate := dict_get TIMBER_RATES (_tree_type self) dflt in
      Ok (Float.mul (BasePlant._area (base self)) rate)
  | Raise e => Raise e
  end.

Definition get_type (self : t) : string := "forestry".

Definition carbon_rates : gmap string float :=
  list_to_map
    [("pine", Float.lit 80 1); ("oak", Float.lit 65 1);
     ("eucalyptus", Float.lit 150 1); ("teak", Float.lit 70 1);
     ("bamboo", Float.lit 120 1); ("default", Float.lit 80 1)].

Definition get_carbon_sequestration (self : t) : result float :=
  match dict_item carbon_rates "default" with
  | Ok dflt =>
      let rate := dict_get carbon_rates (_tree_type self) dflt in
      Ok (Float.mul (BasePlant._area (base self)) rate)
  | Raise e => Raise e
  end.

End Forest.

(** *** [class Agriculture(Crop)] *)

Module Agriculture.

Record t : Type := Build { crop : Crop.t; _is_organic : bool }.

Definition __init__ (now : datetime) (name : string) (area : float)
    (crop_subtype : string) (is_organic : bool) : t :=
  {| crop := Crop.__init__ now name area crop_subtype;
     _is_organic := is_organic |}.

Definition get_yield_estimate (self : t) : result float :=
  match Crop.get_yield_estimate (crop self) with
  | Ok base_yield =>
      if _is_organic self then Ok (Float.mul base_yield (Float.lit 8 1))
      else Ok base_yield
  | Raise e => Raise e
  end.

Definition base_prices : gmap string Z :=
  list_to_map
    [("wheat", 250%Z); ("corn", 200%Z); ("rice", 350%Z);
     ("potato", 150%Z); ("soybean", 400%Z); ("cotton", 1500%Z);
     ("default", 300%Z)].

Definition get_market_value (self : t) : result float :=
  match dict_item base_prices "default" with
  | Ok dflt =>
      let price := dict_get base_prices (Crop._crop_subtype (crop self)) dflt in
      match get_yield_estimate self with
      | Ok yield_tonnes =>
          if _is_organic self then
            Ok (Float.mul (Float.mul yield_tonnes (Float.of_int price))
                          (Float.lit 13 1))
          else Ok (Float.mul yield_tonnes (Float.of_int price))
      | Raise e => Raise e
      end
  | Raise e => Raise e
  end.

End Agriculture.

(** *** An instance of a concrete subclass of [BasePlant] *)

Module Plant.

Inductive t : Type :=
| OfCrop (c : Crop.t)
| OfForest (f : Forest.t)
| OfAgriculture (a : Agriculture.t).

Definition base (self : t) : BasePlant.t :=
  match self with
  | OfCrop c => Crop.base c
  | OfForest f => Forest.base f
  | OfAgriculture a => Crop.base (Agriculture.crop a)
  end.

Definition with_base (self : t) (b : BasePlant.t) : t :=
  match self with
  | OfCrop c => OfCrop {| Crop.base := b; Crop._crop_subtype := Crop._crop_subtype c |}
  | OfForest f => OfForest {| Forest.base := b; Forest._tree_type := Forest._tree_type f |}
  | OfAgriculture a =>
      OfAgriculture
        {| Agriculture.crop :=
             {| Crop.base := b;
                Crop._crop_subtype := Crop._crop_subtype (Agriculture.crop a) |};
           Agriculture._is_organic := Agriculture._is_organic a |}
  end.

(** An inherited method of [BasePlant] run on the instance. *)
Definition inherited {A : Type} (c : M BasePlant.t A) : M t A :=
  fun self =>
    let '(r, b) := c (base self) in (r, with_base self b).

Definition name (self : t) : string := BasePlant.name (base self).
Definition area (self : t) : float := BasePlant.area (base self).
Definition status (self : t) : string := BasePlant.status (base self).

Definition set_area (value : float) : M t unit :=
  inherited (BasePlant.set_area value).

Definition set_status (value : string) : M t unit :=
  inherited (BasePlant.set_status value).

(** The key used for the rate tables. *)
Definition subtype (self : t) : string :=
  match self with
  | OfCrop c => Crop._crop_subtype c
  | OfForest f => Forest._tree_type f
  | OfAgriculture a => Crop._crop_subtype (Agriculture.crop a)
  end.

(** The yield table of the instance's class. *)
Definition yield_table (self : t) : gmap string float :=
  match self with
  | OfCrop _ | OfAgriculture _ => Crop.YIELD_RATES
  | OfForest _ => Forest.TIMBER_RATES
  end.

(** Dynamic dispatch of the abstract methods. *)
Definition get_yield_estimate (self : t) : result float :=
  match self with
  | OfCrop c => Crop.get_yield_estimate c
  | OfForest f => Forest.get_yield_estimate f
  | OfAgriculture a => Agriculture.get_yield_estimate a
  end.

Definition get_type (self : t) : string :=
  match self with
  | OfCrop c => Crop.get_type c
  | OfForest f => Forest.get_type f
  | OfAgriculture a => Crop.get_type (Agriculture.crop a)
  end.

Definition days_since_planting (now : datetime) (self : t) : Z :=
  BasePlant.days_since_planting now (base self).

Record dict : Type := {
  d_name : string;
  d_area : float;
  d_status : string;
  d_type : string;
  d_days_planted : Z
}.

Definition to_dict (now : datetime) (self : t) : dict :=
  {| d_name := name self; d_area := area self; d_status := status self;
     d_type := get_type self;
     d_days_planted := days_since_planting now self |}.

End Plant.

(** ** [class CropManager] *)

Module CropManager.

Record t : Type := Build { _plants : list Plant.t }.

Definition __init__ : t := {| _plants := [] |}.

Definition add_crop (now : datetime) (name plant_type : string)
    (area : float) (subtype : string) : M t Plant.t :=
  let plant :=
    if String.eqb (lower plant_type) "agriculture" then
      Plant.OfCrop (Crop.__init__ now name area subtype)
    else if String.eqb (lower plant_type) "forestry" then
      Plant.OfForest (Forest.__init__ now name area subtype)
    else
      Plant.OfCrop (Crop.__init__ now name area subtype) in
  let! _ := modify (fun self => {| _plants := _plants self ++ [plant] |}) in
  ret plant.

(** The loop of [remove_crop]: deletes the first plant of that name. *)
Fixpoint remove_first (name : string) (plants : list Plant.t)
  : option (list Plant.t) :=
  match plants with
  | [] => None
  | plant :: rest =>
      if String.eqb (Plant.name plant) name then Some rest
      else
        match remove_first name rest with
        | Some rest' => Some (plant :: rest')
        | None => None
        end
  end.

Definition remove_crop (name : string) : M t bool :=
  fun self =>
    match remove_first name (_plants self) with
    | Some plants => (Ok true, {| _plants := plants |})
    | None => (Ok false, self)
    end.

Definition get_all_crops : M t (list Plant.t) := gets _plants.

Definition get_crops_by_type (plant_type : string) : M t (list Plant.t) :=
  gets (fun self =>
    filter (fun p => Plant.get_type p = lower plant_type) (_plants self)).

Definition get_total_area : M t float :=
  gets (fun self => Float.sum (map Plant.area (_plants self))).

Definition get_total_yield_estimate : M t float :=
  let! plants := gets _plants in
  let! yields := lift (map_result Plant.get_yield_estimate plants) in
  ret (Float.sum yields).

End CropManager.

(** ** [class CropAnalyzer]

    An analyzer holds one reference, [_manager]; its methods are
    computations over the manager that reference points to. *)

Module CropAnalyzer.

Record stats : Type := {
  total_crops : nat;
  total_area : float;
  agriculture_count : nat;
  forestry_count : nat;
  agriculture_area : float;
  forestry_area : float;
  total_yield_estimate : float
}.

Definition get_statistics : M CropManager.t stats :=
  let! crops := CropManager.get_all_crops in
  let! agriculture := CropManager.get_crops_by_type "agriculture" in
  let! forestry := CropManager.get_crops_by_type "forestry" in
  let! area := CropManager.get_total_area in
  let! yield := CropManager.get_total_yield_estimate in
  ret {| total_crops := length crops;
         total_area := Float.round area 2;
         agriculture_count := length agriculture;
         forestry_count := length forestry;
         agriculture_area := Float.round (Float.sum (map Plant.area agriculture)) 2;
         forestry_area := Float.round (Float.sum (map Plant.area forestry)) 2;
         total_yield_estimate := Float.round yield 2 |}.

(** An entry of the recommendation list: a plain string, or the f-string
    [prefix{value}suffix] whose float is kept unformatted. *)
Inductive recommendation : Type :=
| Text (s : string)
| FText (prefix : string) (value : float) (suffix : string).

Record analysis : Type := {
  statistics : stats;
  crops_detail : list Plant.dict;
  recommendations : list recommendation;
  risk_assessment : string;
  carbon_sequestration : option float
}.

(** [analysis['recommendations'].append(r)] *)
Definition append_recommendation (a : analysis) (r : recommendation) : analysis :=
  {| statistics := statistics a; crops_detail := crops_detail a;
     recommendations := recommendations a ++ [r];
     risk_assessment := risk_assessment a;
     carbon_sequestration := carbon_sequestration a |}.

(** [analysis['risk_assessment'] = risk] *)
Definition set_risk_assessment (a : analysis) (risk : string) : analysis :=
  {| statistics := statistics a; crops_detail := crops_detail a;
     recommendations := recommendations a;
     risk_assessment := risk;
     carbon_sequestration := carbon_sequestration a |}.

(** [analysis['carbon_sequestration'] = v] *)
Definition set_carbon_sequestration (a : analysis) (v : float) : analysis :=
  {| statistics := statistics a; crops_detail := crops_detail a;
     recommendations := recommendations a;
     risk_assessment := risk_assessment a;
     carbon_sequestration := Some v |}.

Definition rec_start : recommendation :=
  Text "Start by adding your first crop or forest plantation.".
Definition rec_add_forestry : recommendation :=
  Text "Consider adding forestry for carbon sequestration and diversification.".
Definition rec_carbon (v : float) : recommendation :=
  FText "Your forests sequester approximately " v " tonnes of CO2 per year.".
Definition rec_precision : recommendation :=
  Text "Consider implementing precision agriculture techniques for large-scale management.".
Definition rec_diversify : recommendation :=
  Text "Diversify your crops to reduce risk from market fluctuations and pests.".
Definition rec_good_diversification : recommendation :=
  Text "Good crop diversification! This reduces overall risk.".

(** [isinstance(f, Forest)] *)
Definition as_forest (p : Plant.t) : option Forest.t :=
  match p with
  | Plant.OfForest f => Some f
  | _ => None
  end.

Definition get_detailed_analysis (now : datetime) : M CropManager.t analysis :=
  let! stats := get_statistics in
  let! crops := CropManager.get_all_crops in
  let analysis0 :=
    {| statistics := stats;
       crops_detail := map (Plant.to_dict now) crops;
       recommendations := [];
       risk_assessment := "low";
       carbon_sequestration := None |} in
  if Float.eqb (total_area stats) (Float.of_int 0) then
    ret (append_recommendation analysis0 rec_start)
  else
    let analysis1 :=
      if (0 <? agriculture_count stats)%nat && (forestry_count stats =? 0)%nat
      then append_recommendation analysis0 rec_add_forestry
      else analysis0 in
    let! analysis2 :=
      if (0 <? forestry_count stats)%nat then
        let! forestry_plants := CropManager.get_crops_by_type "forestry" in
        let! carbons :=
          lift (map_result Forest.get_carbon_sequestration
                  (omap as_forest forestry_plants)) in
        let total_carbon := Float.sum carbons in
        ret (append_recommendation
               (set_carbon_sequestration analysis1 (Float.round total_carbon 2))
               (rec_carbon (Float.round total_carbon 2)))
      else ret analysis1 in
    let analysis3 :=
      if Float.ltb (Float.of_int 100) (total_area stats)
      then append_recommendation analysis2 rec_precision
      else analysis2 in
    if (length crops =? 1)%nat then
      ret (set_risk_assessment
             (append_recommendation analysis3 rec_diversify) "medium")
    else if (3 <=? length crops)%nat then
      ret (append_recommendation
             (set_risk_assessment analysis3 "low") rec_good_diversification)
    else ret analysis3.

Definition seasons : list (list Z * string) :=
  [([12; 1; 2]%Z,
    "Winter: Focus on planning next season, soil preparation, and pruning dormant trees.");
   ([3; 4; 5]%Z,
    "Spring: Ideal time for planting most crops. Monitor soil moisture and prepare irrigation.");
   ([6; 7; 8]%Z,
    "Summer: Focus on pest management, irrigation, and early harvesting of some crops.");
   ([9; 10; 11]%Z,
    "Autumn: Harvest season for most crops. Prepare soil for winter crops.")].

(** The [for months, advice in seasons.items()] loop with its fall-through. *)
Fixpoint first_advice (current_month : Z) (items : list (list Z * string))
  : string :=
  match items with
  | [] => "Monitor your crops regularly and adjust care based on weather conditions."
  | (months, advice) :: rest =>
      if bool_decide (current_month ∈ months) then advice
      else first_advice current_month rest
  end.

Definition get_seasonal_advice (now : datetime) (current_month : option Z)
  : M CropManager.t string :=
  let current_month :=
    match current_month with
    | None => month now
    | Some m => m
    end in
  ret (first_advice current_month seasons).

End CropAnalyzer.

(** ** [utils.calculate_yield_estimate] *)

Module utils.

Definition yield_rates : gmap string float :=
  list_to_map
    [("wheat", Float.lit 35 1); ("corn", Float.lit 100 1);
     ("rice", Float.lit 45 1); ("potato", Float.lit 400 1);
     ("soybean", Float.lit 28 1); ("cotton", Float.lit 18 1);
     ("pine", Float.lit 150 1); ("oak", Float.lit 80 1);
     ("eucalyptus", Float.lit 250 1)].

Definition prices : gmap string Z :=
  list_to_map
    [("wheat", 250%Z); ("corn", 200%Z); ("rice", 350%Z); ("potato", 150%Z);
     ("soybean", 400%Z); ("cotton", 1500%Z); ("pine", 100%Z); ("oak", 150%Z);
     ("eucalyptus", 80%Z)].

Record estimate : Type := {
  yield_tonnes : float;
  estimated_value : float;
  per_hectare_yield : float;
  unit : string
}.

Definition calculate_yield_estimate (area : float) (crop_type : string)
    (is_organic : bool) : estimate :=
  let rate := dict_get yield_rates (lower crop_type) (Float.lit 50 1) in
  let price := dict_get prices (lower crop_type) 200%Z in
  let estimated_yield := Float.mul area rate in
  let estimated_yield' :=
    if is_organic then Float.mul estimated_yield (Float.lit 8 1)
    else estimated_yield in
  let price' :=
    if is_organic then Float.mul (Float.of_int price) (Float.lit 13 1)
    else Float.of_int price in
  {| yield_tonnes := Float.round estimated_yield' 2;
     estimated_value := Float.round (Float.mul estimated_yield' price') 2;
     per_hectare_yield := rate;
     unit :=
       if negb (bool_decide (lower crop_type ∈ ["pine"; "oak"; "eucalyptus"]))
       then "tonnes" else "cubic_meters" |}.

(** Dicts keyed by a Python [int]: [d[k]] and [d.get(k, dflt)]. *)
Definition int_dict_item {V : Type} (d : gmap Z V) (k : Z) (shown : string)
  : result V :=
  match d !! k with
  | Some v => Ok v
  | None => Raise (KeyError shown)
  end.

Definition int_dict_get {V : Type} (d : gmap Z V) (k : Z) (dflt : V) : V :=
  default dflt (d !! k).

Record season_entry : Type := {
  season : string;
  activities : list string;
  crops_to_plant : list string;
  forestry_tasks : list string
}.

Definition recommendations : gmap Z season_entry :=
  list_to_map
    [(1%Z,
      {| season := "Winter";
         activities := ["Plan crop rotation"; "Order seeds"; "Maintain equipment"; "Prune fruit trees"];
         crops_to_plant := ["Winter vegetables in greenhouse"];
         forestry_tasks := ["Tree pruning"; "Firewood preparation"] |});
     (2%Z,
      {| season := "Late Winter";
         activities := ["Prepare seedbeds"; "Test soil"; "Plan irrigation"];
         crops_to_plant := ["Early potatoes"; "Onions"];
         forestry_tasks := ["Prepare for spring planting"] |});
     (3%Z,
      {| season := "Early Spring";
         activities := ["Start planting"; "Apply fertilizers"; "Prepare irrigation systems"];
         crops_to_plant := ["Wheat"; "Barley"; "Peas"; "Carrots"];
         forestry_tasks := ["Plant new trees"; "Check for winter damage"] |});
     (4%Z,
      {| season := "Spring";
         activities := ["Continue planting"; "Weed control"; "Pest monitoring"];
         crops_to_plant := ["Corn"; "Soybeans"; "Cotton"];
         forestry_tasks := ["Continue planting"; "Mulching"] |});
     (5%Z,
      {| season := "Late Spring";
         activities := ["Irrigate regularly"; "Fertilize"; "Monitor pests"];
         crops_to_plant := ["Vegetables"; "Rice (paddies)"];
         forestry_tasks := ["Monitor growth"; "Pest control"] |});
     (6%Z,
      {| season := "Early Summer";
         activities := ["Intensive pest management"; "Irrigation"; "First harvests"];
         crops_to_plant := ["Second crop vegetables"];
         forestry_tasks := ["Fire prevention"; "Thinning"] |});
     (7%Z,
      {| season := "Summer";
         activities := ["Harvest early crops"; "Manage water carefully"; "Store produce"];
         crops_to_plant := ["Fall vegetables"];
         forestry_tasks := ["Fire watch"; "Irrigation if needed"] |});
     (8%Z,
      {| season := "Late Summer";
         activities := ["Continue harvesting"; "Prepare for fall planting"; "Soil amendments"];
         crops_to_plant := ["Winter wheat"; "Cover crops"];
         forestry_tasks := ["Assess timber ready for harvest"] |});
     (9%Z,
      {| season := "Early Autumn";
         activities := ["Major harvest season"; "Plant cover crops"; "Soil testing"];
         crops_to_plant := ["Garlic"; "Winter rye"; "Clover"];
         forestry_tasks := ["Begin selective harvesting"; "Seed collection"] |});
     (10%Z,
      {| season := "Autumn";
         activities := ["Complete harvests"; "Prepare fields for winter"; "Equipment maintenance"];
         crops_to_plant := ["Winter crops"];
         forestry_tasks := ["Harvesting season"; "Plant deciduous trees"] |});
     (11%Z,
      {| season := "Late Autumn";
         activities := ["Final harvests"; "Cover crops"; "Winterize equipment"];
         crops_to_plant := ["Greenhouse crops only"];
         forestry_tasks := ["Complete harvesting"; "Prepare for winter"] |});
     (12%Z,
      {| season := "Early Winter";
         activities := ["Planning for next year"; "Record keeping"; "Market planning"];
         crops_to_plant := ["Indoor/greenhouse only"];
         forestry_tasks := ["Planning"; "Winter protection for young trees"] |})].

(** [datetime.now().month] *)
Definition now_month (now : datetime) : Z := month now.

Definition get_season_recommendation (now : datetime) (month : option Z)
  : result season_entry :=
  let month :=
    match month with
    | None => now_month now
    | Some m => m
    end in
  match int_dict_item recommendations 1%Z "1" with
  | Ok january => Ok (int_dict_get recommendations month january)
  | Raise e => Raise e
  end.

Definition emissions : gmap string float :=
  list_to_map
    [("wheat", Float.lit 5 1); ("corn", Float.lit 8 1); ("rice", Float.lit 15 1);
     ("potato", Float.lit 4 1); ("soybean", Float.lit 3 1);
     ("cotton", Float.lit 7 1)].

Definition sequestration : gmap string float :=
  list_to_map
    [("pine", Float.lit 80 1); ("oak", Float.lit 65 1);
     ("eucalyptus", Float.lit 150 1); ("teak", Float.lit 70 1);
     ("bamboo", Float.lit 120 1)].

(** The dict returned by [calculate_carbon_footprint]; exactly one of the
    keys ['annual_sequestration'] and ['annual_emissions'] is present. *)
Record footprint : Type := {
  cf_type : string;
  annual_sequestration : option float;
  annual_emissions : option float;
  cf_unit : string;
  climate_impact : string
}.

Definition calculate_carbon_footprint (area : float) (crop_type : string)
  : result footprint :=
  let crop_lower := lower crop_type in
  if bool_decide (is_Some (sequestration !! crop_lower)) then
    match dict_item sequestration crop_lower with
    | Ok rate =>
        Ok {| cf_type := "carbon_sink";
              annual_sequestration := Some (Float.round (Float.mul area rate) 2);
              annual_emissions := None;
              cf_unit := "tonnes_CO2_per_year";
              climate_impact := "positive" |}
    | Raise e => Raise e
    end
  else
    let emission_rate := dict_get emissions crop_lower (Float.lit 5 1) in
    Ok {| cf_type := "carbon_source";
          annual_sequestration := None;
          annual_emissions := Some (Float.round (Float.mul area emission_rate) 2);
          cf_unit := "tonnes_CO2_per_year";
          climate_impact := "negative" |}.

End utils.

(** ** [app.py]: how the web layer fills a registry

    The [dashboard] and [analyze] views read the user's rows of the [Crop]
    table and feed them to a fresh manager; the query is modelled by the
    list of rows it returns. *)

Module app.

(** The columns of [class Crop(db.Model)] the views read. *)
Record Crop : Type := { name : string; crop_type : string; area : float }.

(** [for crop in crops: crop_manager.add_crop(crop.name, crop.crop_type, crop.area)] *)
Fixpoint add_rows (now : datetime) (crops : list Crop) : M CropManager.t unit :=
  match crops with
  | [] => ret tt
  | crop :: rest =>
      let! _ := CropManager.add_crop now (name crop) (crop_type crop)
                  (area crop) "default" in
      add_rows now rest
  end.

(** The [stats] value [dashboard] renders. *)
Definition dashboard (now : datetime) (crops : list Crop)
  : result CropAnalyzer.stats * CropManager.t :=
  (let! _ := add_rows now crops in CropAnalyzer.get_statistics)
    CropManager.__init__.

(** The [analysis] value [analyze] renders. *)
Definition analyze (now : datetime) (crops : list Crop)
  : result CropAnalyzer.analysis * CropManager.t :=
  (let! _ := add_rows now crops in CropAnalyzer.get_detailed_analysis now)
    CropManager.__init__.

(** The [crop_data] payload [analyze] sends to the Lambda function: one
    dict per row with the keys ['name'], ['type'] and ['area']. *)
Record crop_datum : Type := {
  cd_name : option string;
  cd_type : option string;
  cd_area : option float
}.

Definition crop_data (crops : list Crop) : list crop_datum :=
  map (fun c => {| cd_name := Some (name c); cd_type := Some (crop_type c);
                   cd_area := Some (area c) |}) crops.

End app.

(** ** [LAMBDA_CODE] of [setup_aws_infrastructure.py]

    The handler reads ['type'] and ['area'] of each crop dict; a field is
    [None] when the key is absent. The [analysis] dict is kept as it is
    handed to [json.dumps]. *)

Module lambda_code.

Record analysis : Type := {
  total_crops : nat;
  total_area : float;
  agriculture_count : nat;
  forestry_count : nat;
  recommendation : string;
  status : string
}.

Definition lambda_handler (event_crops : option (list app.crop_datum))
  : Z * analysis :=
  let crops := default [] event_crops in
  let total_area :=
    Float.sum (map (fun c => default (Float.of_int 0) (app.cd_area c)) crops) in
  let agriculture_count :=
    length (filter (fun c => app.cd_type c = Some "agriculture") crops) in
  let forestry_count :=
    length (filter (fun c => app.cd_type c = Some "forestry") crops) in
  (200%Z,
   {| total_crops := length crops;
      total_area := total_area;
      agriculture_count := agriculture_count;
      forestry_count := forestry_count;
      recommendation :=
        if (length crops <? 3)%nat
        then "Diversify crops for better risk management"
        else "Good diversification";
      status := "analyzed" |}).

End lambda_code.

(** ** Reference definitions used in the statements *)

(** The sum [xs[0] + ... + xs[n-1]], term after term from [0]. *)
Fixpoint sum_of_first (xs : list float) (n : nat) : float :=
  match n with
  | O => Float.zero
  | S k =>
      match xs !! k with
      | Some x => Float.add (sum_of_first xs k) x
      | None => sum_of_first xs k
      end
  end.

(** A computation that hands the object back as it received it. *)
Definition read_only {S A : Type} (c : M S A) : Prop :=
  forall s, snd (c s) = s.

(** The [is_organic] flag of a plant; only [Agriculture] carries one. *)
Definition is_organic (p : Plant.t) : bool :=
  match p with
  | Plant.OfAgriculture a => Agriculture._is_organic a
  | _ => false
  end.

(** The organic yield penalty of [Agriculture.get_yield_estimate]. *)
Definition organic_penalty (organic : bool) (y : float) : float :=
  if organic then Float.mul y (Float.lit 8 1) else y.

(** Registries obtained from [CropManager()] through its own methods. *)
Inductive built : CropManager.t -> Prop :=
| built_init : built CropManager.__init__
| built_add now name plant_type area subtype m :
    built m ->
    built (snd (CropManager.add_crop now name plant_type area subtype m))
| built_remove name m :
    built m -> built (snd (CropManager.remove_crop name m)).

(** The recommendations that precede the diversification check. *)
Definition early_recommendation (r : CropAnalyzer.recommendation) : Prop :=
  r = CropAnalyzer.rec_add_forestry \/
  (exists v, r = CropAnalyzer.rec_carbon v) \/
  r = CropAnalyzer.rec_precision.

(** The diversification check that ends [get_detailed_analysis], on a
    registry of [n] plants. *)
Definition diversification_step (n : nat) (a : CropAnalyzer.analysis)
  : CropAnalyzer.analysis :=
  if (n =? 1)%nat then
    CropAnalyzer.set_risk_assessment
      (CropAnalyzer.append_recommendation a CropAnalyzer.rec_diversify) "medium"
  else if (3 <=? n)%nat then
    CropAnalyzer.append_recommendation
      (CropAnalyzer.set_risk_assessment a "low")
      CropAnalyzer.rec_good_diversification
  else a.

(** The advisory strings of [get_seasonal_advice]. *)
Definition advice_winter : string :=
  "Winter: Focus on planning next season, soil preparation, and pruning dormant trees.".
Definition advice_spring : string :=
  "Spring: Ideal time for planting most crops. Monitor soil moisture and prepare irrigation.".
Definition advice_summer : string :=
  "Summer: Focus on pest management, irrigation, and early harvesting of some crops.".
Definition advice_autumn : string :=
  "Autumn: Harvest season for most crops. Prepare soil for winter crops.".
Definition advice_generic : string :=
  "Monitor your crops regularly and adjust care based on weather conditions.".

(** One setter call on an entity, whether it succeeds or raises. *)
Inductive setter_step : Plant.t -> Plant.t -> Prop :=
| step_set_area value p : setter_step p (snd (Plant.set_area value p))
| step_set_status value p : setter_step p (snd (Plant.set_status value p)).

(** An entity as one of the three constructors leaves it. *)
Inductive fresh : Plant.t -> Prop :=
| fresh_Crop now name area subtype :
    fresh (Plant.OfCrop (Crop.__init__ now name area subtype))
| fresh_Forest now name area tree_type :
    fresh (Plant.OfForest (Forest.__init__ now name area tree_type))
| fresh_Agriculture now name area subtype organic :
    fresh (Plant.OfAgriculture (Agriculture.__init__ now name area subtype organic)).

(** The part of an entity no setter reaches. *)
Definition identity_of (p : Plant.t)
  : string * datetime * string * string * bool :=
  (Plant.name p, BasePlant._planting_date (Plant.base p), Plant.get_type p,
   Plant.subtype p, is_organic p).

(** The forests among the plants [get_crops_by_type('forestry')] returns. *)
Definition forests_of (m : CropManager.t) : list Forest.t :=
  omap CropAnalyzer.as_forest
    (filter (fun p => Plant.get_type p = "forestry") (CropManager._plants m)).

(** The recommendation list in the order the checks append to it. *)
Definition expected_recommendations (st : CropAnalyzer.stats) (n : nat)
    (carbon : float) : list CropAnalyzer.recommendation :=
  if Float.eqb (CropAnalyzer.total_area st) (Float.of_int 0) then
    [CropAnalyzer.rec_start]
  else
    ((if (0 <? CropAnalyzer.agriculture_count st)%nat
         && (CropAnalyzer.forestry_count st =? 0)%nat
      then [CropAnalyzer.rec_add_forestry] else [])
    ++ (if (0 <? CropAnalyzer.forestry_count st)%nat
        then [CropAnalyzer.rec_carbon carbon] else [])
    ++ (if Float.ltb (Float.of_int 100) (CropAnalyzer.total_area st)
        then [CropAnalyzer.rec_precision] else [])
    ++ (if (n =? 1)%nat then [CropAnalyzer.rec_diversify]
        else if (3 <=? n)%nat then [CropAnalyzer.rec_good_diversification]
        else []))%list.

(** The plant [add_crop] builds for a row of the [Crop] table. *)
Definition plant_of_row (now : datetime) (row : app.Crop) : Plant.t :=
  if String.eqb (lower (app.crop_type row)) "forestry" then
    Plant.OfForest (Forest.__init__ now (app.name row) (app.area row) "default")
  else
    Plant.OfCrop (Crop.__init__ now (app.name row) (app.area row) "default").

(** [s.endswith(suffix)] *)
Definition ends_with (suffix s : string) : bool :=
  String.eqb
    (String.substring (String.length s - String.length suffix)
       (String.length suffix) s)
    suffix.

(** The month a seasonal lookup works with: the override, else the clock's. *)
Definition effective_month (now : datetime) (override : option Z) : Z :=
  match override with
  | None => month now
  | Some m => m
  end.

(** The season names the two seasonal lookups share. *)
Definition season_names : list string := ["Winter"; "Spring"; "Summer"; "Autumn"].

(** One setter call whose argument, for [area], is a number. *)
Inductive numeric_setter_step : Plant.t -> Plant.t -> Prop :=
| nstep_set_area value p :
    value <> S754_nan ->
    numeric_setter_step p (snd (Plant.set_area value p))
| nstep_set_status value p :
    numeric_setter_step p (snd (Plant.set_status value p)).

(** The value of a result, if any. *)
Definition result_to_option {A : Type} (r : result A) : option A :=
  match r with
  | Ok a => Some a
  | Raise _ => None
  end.

(** *** Sample inputs *)

Definition noon : datetime := {| ticks := 1700000000000000; month := 11 |}.

Definition wheat_field : Plant.t :=
  Plant.OfCrop (Crop.__init__ noon "FieldA" (Float.of_int 10) "wheat").

Definition organic_wheat : Plant.t :=
  Plant.OfAgriculture
    (Agriculture.__init__ noon "FieldA" (Float.of_int 10) "wheat" true).

(** [CropManager()] after [add_crop(name, 'agriculture', area)] for each
    area of the list, in order. *)
Definition registry_of (areas : list float) : CropManager.t :=
  fold_left
    (fun m area => snd (CropManager.add_crop noon "plot" "agriculture" area "wheat" m))
    areas CropManager.__init__.

(** * Properties *)

(** ** Floats *)

Lemma Float_mul_comm (x y : float) : Float.mul x y = Float.mul y x.
Proof.
  unfold Float.mul, SFmul.
  destruct x as [sx | sx | | sx mx ex], y as [sy | sy | | sy my ey];
    rewrite ?(xorb_comm sx sy); try reflexivity.
  now rewrite Pos.mul_comm, Z.add_comm.
Qed.

Lemma Float_sum_snoc (xs : list float) (x : float) :
  Float.sum (xs ++ [x]) = Float.add (Float.sum xs) x.
Proof. unfold Float.sum. now rewrite fold_left_app. Qed.

(** A value that is neither [<= 0] nor NaN is [> 0]. *)
Lemma Float_not_leb_ltb (v : float) :
  Float.leb v (Float.of_int 0) = false -> v <> S754_nan ->
  Float.ltb (Float.of_int 0) v = true.
Proof.
  destruct v as [s | [] | | [] m e]; cbn; intros H Hnan;
    try reflexivity; try discriminate; congruence.
Qed.

Lemma sum_of_first_app (xs ys : list float) (n : nat) :
  (n <= length xs)%nat -> sum_of_first (xs ++ ys) n = sum_of_first xs n.
Proof.
  induction n as [| k IH]; intros Hn; [reflexivity |].
  cbn. rewrite lookup_app_l by lia. rewrite IH by lia. reflexivity.
Qed.

Lemma sum_is_sum_of_first (xs : list float) :
  Float.sum xs = sum_of_first xs (length xs).
Proof.
  induction xs as [| x xs IH] using rev_ind; [reflexivity |].
  rewrite Float_sum_snoc, length_app, Nat.add_1_r. cbn.
  rewrite lookup_app_r by lia. rewrite Nat.sub_diag. cbn.
  rewrite sum_of_first_app by lia. now rewrite IH.
Qed.

(** ** The monad *)

Create HintDb read_only.

Lemma read_only_ret {S A : Type} (a : A) : read_only (@ret S A a).
Proof. intros s. reflexivity. Qed.

Lemma read_only_gets {S A : Type} (f : S -> A) : read_only (gets f).
Proof. intros s. reflexivity. Qed.

Lemma read_only_lift {S A : Type} (r : result A) : read_only (@lift S A r).
Proof. intros s. reflexivity. Qed.

Lemma read_only_bind {S A B : Type} (c : M S A) (k : A -> M S B) :
  read_only c -> (forall a, read_only (k a)) -> read_only (bind c k).
Proof.
  intros Hc Hk s. unfold bind. specialize (Hc s).
  destruct (c s) as [[a | e] s']; cbn in Hc; subst s'.
  - apply Hk.
  - reflexivity.
Qed.

Lemma read_only_if {S A : Type} (b : bool) (c1 c2 : M S A) :
  read_only c1 -> read_only c2 -> read_only (if b then c1 else c2).
Proof. now destruct b. Qed.

#[global] Hint Resolve read_only_ret read_only_gets read_only_lift
  read_only_bind read_only_if : read_only.

Lemma map_result_ok {A B : Type} (f : A -> result B) (xs : list A) :
  (forall x, exists y, f x = Ok y) ->
  exists ys, map_result f xs = Ok ys /\ Forall2 (fun x y => f x = Ok y) xs ys.
Proof.
  intros Hf. induction xs as [| x xs (ys & Hys & HF)].
  - exists []. split; [reflexivity | constructor].
  - destruct (Hf x) as [y Hy]. exists (y :: ys). cbn. rewrite Hy, Hys.
    split; [reflexivity | now constructor].
Qed.

(** ** Plant entities *)

Lemma Plant_with_base_base (p : Plant.t) : Plant.with_base p (Plant.base p) = p.
Proof. destruct p as [[b s] | [b s] | [[b s] o]]; reflexivity. Qed.

Lemma Crop_default_rate : Crop.YIELD_RATES !! "default" = Some (Float.lit 50 1).
Proof. vm_compute. reflexivity. Qed.

Lemma Forest_default_rate : Forest.TIMBER_RATES !! "default" = Some (Float.lit 120 1).
Proof. vm_compute. reflexivity. Qed.

Lemma Forest_default_carbon : Forest.carbon_rates !! "default" = Some (Float.lit 80 1).
Proof. vm_compute. reflexivity. Qed.

Lemma Agriculture_default_price : Agriculture.base_prices !! "default" = Some 300%Z.
Proof. vm_compute. reflexivity. Qed.

Lemma Crop_get_yield_estimate_eq (c : Crop.t) :
  Crop.get_yield_estimate c =
  Ok (Float.mul (BasePlant._area (Crop.base c))
        (default (Float.lit 50 1) (Crop.YIELD_RATES !! Crop._crop_subtype c))).
Proof.
  unfold Crop.get_yield_estimate, dict_item, dict_get.
  now rewrite Crop_default_rate.
Qed.

Lemma Forest_get_yield_estimate_eq (f : Forest.t) :
  Forest.get_yield_estimate f =
  Ok (Float.mul (BasePlant._area (Forest.base f))
        (default (Float.lit 120 1) (Forest.TIMBER_RATES !! Forest._tree_type f))).
Proof.
  unfold Forest.get_yield_estimate, dict_item, dict_get.
  now rewrite Forest_default_rate.
Qed.

Lemma Forest_get_carbon_sequestration_ok (f : Forest.t) :
  exists c, Forest.get_carbon_sequestration f = Ok c.
Proof.
  unfold Forest.get_carbon_sequestration, dict_item.
  rewrite Forest_default_carbon. eauto.
Qed.

Lemma Plant_get_yield_estimate_ok (p : Plant.t) :
  exists y, Plant.get_yield_estimate p = Ok y.
Proof.
  destruct p as [c | f | [c o]]; cbn.
  - rewrite Crop_get_yield_estimate_eq. eauto.
  - rewrite Forest_get_yield_estimate_eq. eauto.
  - unfold Agriculture.get_yield_estimate. cbn.
    rewrite Crop_get_yield_estimate_eq. destruct o; eauto.
Qed.

(** *** The area invariant *)

(** [add_crop] stores the area it is given, whatever its sign. *)
Lemma add_crop_result (now : datetime) (name plant_type : string)
    (area : float) (subtype : string) (m : CropManager.t) :
  exists p,
    CropManager.add_crop now name plant_type area subtype m
      = (Ok p, {| CropManager._plants := CropManager._plants m ++ [p] |}) /\
    (p = Plant.OfCrop (Crop.__init__ now name area subtype) \/
     p = Plant.OfForest (Forest.__init__ now name area subtype)).
Proof.
  unfold CropManager.add_crop, bind, modify, ret.
  destruct (String.eqb (lower plant_type) "agriculture");
    [| destruct (String.eqb (lower plant_type) "forestry")];
    eexists; split; try reflexivity; auto.
Qed.

Lemma add_crop_area (now : datetime) (name plant_type : string)
    (area : float) (subtype : string) (m : CropManager.t) (p : Plant.t) :
  fst (CropManager.add_crop now name plant_type area subtype m) = Ok p ->
  Plant.area p = area.
Proof.
  destruct (add_crop_result now name plant_type area subtype m)
    as (q & -> & [-> | ->]); cbn; intros [= <-]; reflexivity.
Qed.

(** The setter keeps a positive area positive, on success and on failure,
    for every value that is a number. *)
Lemma set_area_keeps_positive (value : float) (p : Plant.t) :
  value <> S754_nan ->
  Float.ltb (Float.of_int 0) (Plant.area p) = true ->
  Float.ltb (Float.of_int 0) (Plant.area (snd (Plant.set_area value p))) = true.
Proof.
  intros Hnan Hpos.
  unfold Plant.set_area, Plant.inherited, BasePlant.set_area.
  destruct (Float.leb value (Float.of_int 0)) eqn:Hle.
  - cbn. now rewrite Plant_with_base_base.
  - cbn. destruct p as [[b s] | [b s] | [[b s] o]]; cbn;
      now apply Float_not_leb_ltb.
Qed.

(** The setter lets NaN through, since [nan <= 0] is false. *)
Lemma set_area_accepts_nan :
  fst (Plant.set_area S754_nan wheat_field) = Ok tt /\
  Plant.area (snd (Plant.set_area S754_nan wheat_field)) = S754_nan.
Proof. split; reflexivity. Qed.

(** C1 (the code departs from the claim). The constructor reached through
    [add_crop] assigns [_area] without the check the setter makes:
    [add_crop("FieldA", "agriculture", -5.0, "wheat")] on a fresh manager
    succeeds and registers an entity whose area is [-5.0], a value the
    area setter refuses with "Area must be positive". *)
Theorem add_crop_accepts_nonpositive_area :
  let area := Float.of_int (-5) in
  exists p,
    CropManager.add_crop noon "FieldA" "agriculture" area "wheat"
        CropManager.__init__
      = (Ok p, {| CropManager._plants := [p] |}) /\
    Plant.area p = area /\
    Float.ltb (Float.of_int 0) (Plant.area p) = false /\
    Plant.set_area area p = (Raise (ValueError "Area must be positive"), p).
Proof.
  eexists. split; [reflexivity |].
  split; [reflexivity |]. split; vm_compute; reflexivity.
Qed.

(** *** Setter rejection *)

(** C2. Assigning [area] a value [<= 0] raises [ValueError] and assigning
    [status] a string outside the five valid ones raises [ValueError]; in
    both cases the entity is handed back with every field as before. *)
Theorem setters_reject_without_mutation (p : Plant.t) :
  (forall value : float,
      Float.leb value (Float.of_int 0) = true ->
      Plant.set_area value p
        = (Raise (ValueError "Area must be positive"), p)) /\
  (forall value : string,
      value ∉ BasePlant.valid_statuses ->
      exists msg, Plant.set_status value p = (Raise (ValueError msg), p)).
Proof.
  split.
  - intros value Hle.
    unfold Plant.set_area, Plant.inherited, BasePlant.set_area.
    rewrite Hle. cbn. now rewrite Plant_with_base_base.
  - intros value Hout.
    unfold Plant.set_status, Plant.inherited, BasePlant.set_status.
    rewrite bool_decide_eq_false_2 by exact Hout.
    cbn. rewrite Plant_with_base_base. eauto.
Qed.

Lemma setters_reject_without_mutation_witness :
  Plant.set_area (Float.of_int 0) wheat_field
    = (Raise (ValueError "Area must be positive"), wheat_field) /\
  Plant.set_area (Float.lit (-25) 1) wheat_field
    = (Raise (ValueError "Area must be positive"), wheat_field) /\
  exists msg,
    Plant.set_status "ripe" wheat_field = (Raise (ValueError msg), wheat_field).
Proof.
  split; [| split].
  - apply (proj1 (setters_reject_without_mutation wheat_field)). reflexivity.
  - apply (proj1 (setters_reject_without_mutation wheat_field)). reflexivity.
  - apply (proj2 (setters_reject_without_mutation wheat_field)).
    apply (bool_decide_eq_false_1 _). vm_compute. reflexivity.
Defined.

(** *** Yield estimates *)

(** C3 as stated fails on an organic [Agriculture] entity: with area 10
    and subtype [wheat], present in its table with rate 3.5, the estimate
    is 28.0 and not 10 * 3.5 = 35.0. *)
Lemma yield_estimate_organic_counterexample :
  ~ (forall p : Plant.t,
        Float.ltb (Float.of_int 0) (Plant.area p) = true ->
        forall rate,
          Plant.yield_table p !! Plant.subtype p = Some rate ->
          Plant.get_yield_estimate p = Ok (Float.mul (Plant.area p) rate)).
Proof.
  intros H.
  specialize (H organic_wheat eq_refl (Float.lit 35 1) eq_refl).
  vm_compute in H. discriminate H.
Qed.

(** C3 (amended). For every plant with area [> 0] the yield-table lookup
    never fails: when the subtype key is in the table of the plant's class
    the estimate is area times that entry, otherwise area times the
    ['default'] entry; for an organic [Agriculture] entity that product is
    further multiplied by 0.8. *)
Theorem yield_estimate_table_lookup (p : Plant.t) :
  Float.ltb (Float.of_int 0) (Plant.area p) = true ->
  (forall rate,
      Plant.yield_table p !! Plant.subtype p = Some rate ->
      Plant.get_yield_estimate p
        = Ok (organic_penalty (is_organic p) (Float.mul (Plant.area p) rate))) /\
  (Plant.yield_table p !! Plant.subtype p = None ->
   exists dflt,
     Plant.yield_table p !! "default" = Some dflt /\
     Plant.get_yield_estimate p
       = Ok (organic_penalty (is_organic p) (Float.mul (Plant.area p) dflt))).
Proof.
  intros _.
  destruct p as [c | f | [c o]];
    cbn [Plant.get_yield_estimate Plant.yield_table Plant.subtype Plant.area
         Plant.base BasePlant.area is_organic organic_penalty
         Agriculture.crop Agriculture._is_organic].
  - rewrite Crop_get_yield_estimate_eq. split.
    + intros rate ->. reflexivity.
    + intros ->. exists (Float.lit 50 1). now rewrite Crop_default_rate.
  - rewrite Forest_get_yield_estimate_eq. split.
    + intros rate ->. reflexivity.
    + intros ->. exists (Float.lit 120 1). now rewrite Forest_default_rate.
  - unfold Agriculture.get_yield_estimate.
    cbn [Agriculture.crop Agriculture._is_organic].
    rewrite Crop_get_yield_estimate_eq. split.
    + intros rate ->. destruct o; reflexivity.
    + intros ->. exists (Float.lit 50 1). rewrite Crop_default_rate.
      destruct o; auto.
Qed.

Lemma yield_estimate_table_lookup_witness :
  Plant.get_yield_estimate wheat_field = Ok (Float.of_int 35) /\
  Plant.get_yield_estimate organic_wheat = Ok (Float.of_int 28).
Proof.
  split.
  - rewrite (proj1 (yield_estimate_table_lookup wheat_field eq_refl)
               (Float.lit 35 1) eq_refl).
    vm_compute. reflexivity.
  - rewrite (proj1 (yield_estimate_table_lookup organic_wheat eq_refl)
               (Float.lit 35 1) eq_refl).
    vm_compute. reflexivity.
Defined.

(** *** The organic adjustment *)

(** C4. Two [Agriculture] entities that differ in the organic flag only:
    the organic yield estimate is 0.8 times the other one, the organic
    market value is its own yield estimate times the price of its subtype
    (['default'] when absent) times 1.3, and the other market value is its
    yield estimate times that price. *)
Theorem organic_adjustment (c : Crop.t) :
  let organic := {| Agriculture.crop := c; Agriculture._is_organic := true |} in
  let plain := {| Agriculture.crop := c; Agriculture._is_organic := false |} in
  exists (y_organic y_plain : float) (dflt : Z),
    Agriculture.get_yield_estimate organic = Ok y_organic /\
    Agriculture.get_yield_estimate plain = Ok y_plain /\
    y_organic = Float.mul (Float.lit 8 1) y_plain /\
    Agriculture.base_prices !! "default" = Some dflt /\
    let price :=
      Float.of_int (default dflt (Agriculture.base_prices !! Crop._crop_subtype c)) in
    Agriculture.get_market_value organic
      = Ok (Float.mul (Float.mul y_organic price) (Float.lit 13 1)) /\
    Agriculture.get_market_value plain = Ok (Float.mul y_plain price).
Proof.
  intros organic plain.
  unfold Agriculture.get_market_value, Agriculture.get_yield_estimate,
    dict_item, dict_get.
  subst organic plain. cbn [Agriculture.crop Agriculture._is_organic].
  rewrite Crop_get_yield_estimate_eq, Agriculture_default_price.
  eexists _, _, 300%Z.
  repeat split; try reflexivity.
  apply Float_mul_comm.
Qed.

(** ** The registry and the analyzer *)

Lemma get_total_yield_estimate_eq (m : CropManager.t) :
  exists yields,
    Forall2 (fun p y => Plant.get_yield_estimate p = Ok y)
      (CropManager._plants m) yields /\
    CropManager.get_total_yield_estimate m = (Ok (Float.sum yields), m).
Proof.
  destruct (map_result_ok Plant.get_yield_estimate (CropManager._plants m)
              Plant_get_yield_estimate_ok) as (ys & Hys & HF).
  exists ys. split; [exact HF |].
  unfold CropManager.get_total_yield_estimate, bind, gets, lift, ret.
  now rewrite Hys.
Qed.

Lemma get_statistics_eq (m : CropManager.t) :
  exists st,
    CropAnalyzer.get_statistics m = (Ok st, m) /\
    CropAnalyzer.total_crops st = length (CropManager._plants m) /\
    CropAnalyzer.total_area st
      = Float.round (Float.sum (map Plant.area (CropManager._plants m))) 2.
Proof.
  destruct (get_total_yield_estimate_eq m) as (ys & _ & Hys).
  unfold CropAnalyzer.get_statistics, bind.
  unfold CropManager.get_all_crops, CropManager.get_crops_by_type,
    CropManager.get_total_area, gets, ret.
  rewrite Hys. eexists. split; [reflexivity |]. split; reflexivity.
Qed.

Lemma carbon_sequestration_ok (fs : list Forest.t) :
  exists cs, map_result Forest.get_carbon_sequestration fs = Ok cs.
Proof.
  destruct (map_result_ok Forest.get_carbon_sequestration fs
              Forest_get_carbon_sequestration_ok) as (cs & Hcs & _).
  eauto.
Qed.

Ltac solve_early :=
  repeat match goal with
    | |- _ /\ _ => split
    | |- Forall _ [] => apply List.Forall_nil
    | |- Forall _ (_ :: _) => apply List.Forall_cons
    | |- early_recommendation _ => unfold early_recommendation; eauto
    end; auto.

Lemma get_detailed_analysis_eq (now : datetime) (m : CropManager.t) :
  exists st,
    CropAnalyzer.get_statistics m = (Ok st, m) /\
    if Float.eqb (CropAnalyzer.total_area st) (Float.of_int 0) then
      exists a,
        CropAnalyzer.get_detailed_analysis now m = (Ok a, m) /\
        CropAnalyzer.statistics a = st /\
        CropAnalyzer.risk_assessment a = "low" /\
        CropAnalyzer.recommendations a = [CropAnalyzer.rec_start]
    else
      exists a3,
        CropAnalyzer.get_detailed_analysis now m
          = (Ok (diversification_step (length (CropManager._plants m)) a3), m) /\
        CropAnalyzer.statistics a3 = st /\
        CropAnalyzer.risk_assessment a3 = "low" /\
        Forall early_recommendation (CropAnalyzer.recommendations a3).
Proof.
  destruct (get_statistics_eq m) as (st & Hst & Hn & _).
  exists st. split; [exact Hst |].
  unfold CropAnalyzer.get_detailed_analysis, bind. rewrite Hst.
  change (CropManager.get_all_crops m) with (Ok (CropManager._plants m), m).
  cbn beta iota.
  destruct (Float.eqb (CropAnalyzer.total_area st) (Float.of_int 0)).
  - eexists. split; [reflexivity |]. repeat split.
  - assert (Hfin : forall (a3 : CropAnalyzer.analysis),
      (if (length (CropManager._plants m) =? 1)%nat then
         ret (CropAnalyzer.set_risk_assessment
           (CropAnalyzer.append_recommendation a3 CropAnalyzer.rec_diversify)
           "medium")
       else if (3 <=? length (CropManager._plants m))%nat then
         ret (CropAnalyzer.append_recommendation
           (CropAnalyzer.set_risk_assessment a3 "low")
           CropAnalyzer.rec_good_diversification)
       else ret a3) m
      = (Ok (diversification_step (length (CropManager._plants m)) a3), m)).
    { intros a3. unfold diversification_step.
      destruct (length (CropManager._plants m) =? 1)%nat; [reflexivity |].
      destruct (3 <=? length (CropManager._plants m))%nat; reflexivity. }
    destruct (0 <? CropAnalyzer.forestry_count st)%nat.
    + unfold CropManager.get_crops_by_type, gets, lift.
      destruct (carbon_sequestration_ok
                  (omap CropAnalyzer.as_forest
                     (filter (fun p => Plant.get_type p = lower "forestry")
                        (CropManager._plants m)))) as [cs Hcs].
      rewrite Hcs. unfold ret at 1. rewrite Hfin.
      eexists. split; [reflexivity |].
      destruct (_ && _); destruct (Float.ltb _ _); cbn;
        solve_early.
    + unfold ret at 1. rewrite Hfin.
      eexists. split; [reflexivity |].
      destruct (_ && _); destruct (Float.ltb _ _); cbn;
        solve_early.
Qed.

(** *** Diversification risk *)

(** C5 as stated fails where the total area rounds to [0.0]. One plot of
    0.004 ha has a nonzero total area, yet the analysis takes the
    "start by adding" branch and the risk stays ["low"]; three plots of
    0.001 ha each get no diversification note. *)
Lemma diversification_risk_counterexample :
  ~ (forall (now : datetime) (m : CropManager.t) (total : float)
            (a : CropAnalyzer.analysis),
        length (CropManager._plants m) = 1%nat ->
        CropManager.get_total_area m = (Ok total, m) ->
        Float.eqb total (Float.of_int 0) = false ->
        CropAnalyzer.get_detailed_analysis now m = (Ok a, m) ->
        CropAnalyzer.risk_assessment a = "medium" /\
        CropAnalyzer.rec_diversify ∈ CropAnalyzer.recommendations a) /\
  ~ (forall (now : datetime) (m : CropManager.t) (a : CropAnalyzer.analysis),
        (3 <= length (CropManager._plants m))%nat ->
        CropAnalyzer.get_detailed_analysis now m = (Ok a, m) ->
        CropAnalyzer.risk_assessment a = "low" /\
        CropAnalyzer.rec_good_diversification ∈ CropAnalyzer.recommendations a).
Proof.
  split.
  - intros H.
    destruct (H noon (registry_of [Float.lit 4 3]) (Float.lit 4 3) _
                eq_refl eq_refl eq_refl eq_refl) as [Hrisk _].
    vm_compute in Hrisk. discriminate Hrisk.
  - intros H.
    destruct (H noon
                (registry_of [Float.lit 1 3; Float.lit 1 3; Float.lit 1 3]) _
                (le_n 3) eq_refl) as [_ Hnote].
    vm_compute in Hnote.
    apply list_elem_of_singleton in Hnote. discriminate Hnote.
Qed.

(** C5 (amended). [get_detailed_analysis] always returns, and on a
    registry whose total area rounded to two decimals, as reported in the
    statistics, is not zero: exactly one entity gives risk ["medium"] with
    the diversify recommendation, three or more give ["low"] with the
    good-diversification note. Exactly two entities give ["low"] with
    neither of the two recommendations, whatever the total area. *)
Theorem diversification_risk (now : datetime) (m : CropManager.t) :
  exists a,
    CropAnalyzer.get_detailed_analysis now m = (Ok a, m) /\
    let n := length (CropManager._plants m) in
    let total := CropAnalyzer.total_area (CropAnalyzer.statistics a) in
    let recs := CropAnalyzer.recommendations a in
    (Float.eqb total (Float.of_int 0) = false -> n = 1%nat ->
     CropAnalyzer.risk_assessment a = "medium" /\
     CropAnalyzer.rec_diversify ∈ recs) /\
    (Float.eqb total (Float.of_int 0) = false -> (3 <= n)%nat ->
     CropAnalyzer.risk_assessment a = "low" /\
     CropAnalyzer.rec_good_diversification ∈ recs) /\
    (n = 2%nat ->
     CropAnalyzer.risk_assessment a = "low" /\
     (CropAnalyzer.rec_diversify ∉ recs) /\
     CropAnalyzer.rec_good_diversification ∉ recs).
Proof.
  destruct (get_detailed_analysis_eq now m) as (st & _ & H).
  destruct (Float.eqb (CropAnalyzer.total_area st) (Float.of_int 0)) eqn:Hz.
  - destruct H as (a & Ha & Hst & Hrisk & Hrecs).
    exists a. split; [exact Ha |]. cbn zeta. rewrite Hst, Hz, Hrecs.
    split; [discriminate |]. split; [discriminate |].
    intros _. split; [exact Hrisk |].
    split; intros Hin; apply list_elem_of_singleton in Hin; discriminate Hin.
  - destruct H as (a3 & Ha & Hst & Hrisk & Hrecs).
    eexists. split; [exact Ha |]. cbn zeta.
    unfold diversification_step. split; [| split].
    + intros _ ->. cbn. split; [reflexivity |].
      apply elem_of_app. right. apply list_elem_of_singleton. reflexivity.
    + intros _ Hn.
      destruct (Nat.eqb_spec (length (CropManager._plants m)) 1); [lia |].
      destruct (Nat.leb_spec 3 (length (CropManager._plants m))); [| lia].
      cbn. split; [reflexivity |].
      apply elem_of_app. right. apply list_elem_of_singleton. reflexivity.
    + intros ->. cbn. split; [exact Hrisk |].
      split; intros Hin;
        apply (proj1 (Forall_forall _ _) Hrecs) in Hin;
        destruct Hin as [Hin | [[v Hin] | Hin]]; discriminate Hin.
Qed.

Lemma diversification_risk_witness :
  (exists a,
     CropAnalyzer.get_detailed_analysis noon (registry_of [Float.of_int 10])
       = (Ok a, registry_of [Float.of_int 10]) /\
     CropAnalyzer.risk_assessment a = "medium" /\
     CropAnalyzer.rec_diversify ∈ CropAnalyzer.recommendations a) /\
  (exists a,
     CropAnalyzer.get_detailed_analysis noon
         (registry_of [Float.of_int 10; Float.of_int 5; Float.of_int 2])
       = (Ok a, registry_of [Float.of_int 10; Float.of_int 5; Float.of_int 2]) /\
     CropAnalyzer.risk_assessment a = "low" /\
     CropAnalyzer.rec_good_diversification ∈ CropAnalyzer.recommendations a) /\
  (exists a,
     CropAnalyzer.get_detailed_analysis noon
         (registry_of [Float.of_int 10; Float.of_int 5])
       = (Ok a, registry_of [Float.of_int 10; Float.of_int 5]) /\
     CropAnalyzer.risk_assessment a = "low" /\
     (CropAnalyzer.rec_diversify ∉ CropAnalyzer.recommendations a) /\
     CropAnalyzer.rec_good_diversification ∉ CropAnalyzer.recommendations a).
Proof.
  split; [| split].
  - destruct (diversification_risk noon (registry_of [Float.of_int 10]))
      as (a & Ha & H1 & _ & _).
    exists a. split; [exact Ha |]. apply H1; [| reflexivity].
    vm_compute in Ha. injection Ha as <-. reflexivity.
  - destruct (diversification_risk noon
                (registry_of [Float.of_int 10; Float.of_int 5; Float.of_int 2]))
      as (a & Ha & _ & H3 & _).
    exists a. split; [exact Ha |]. apply H3; [| vm_compute; lia].
    vm_compute in Ha. injection Ha as <-. reflexivity.
  - destruct (diversification_risk noon
                (registry_of [Float.of_int 10; Float.of_int 5]))
      as (a & Ha & _ & _ & H2).
    exists a. split; [exact Ha |]. apply H2. reflexivity.
Defined.

(** *** Registry aggregates *)

(** C6. [get_total_area] is the sum of the areas of the registry's
    entities and [get_total_yield_estimate] the sum of their yield
    estimates, each taken in registry order; both are 0 on the empty
    registry. Neither call fails nor changes the registry. *)
Theorem registry_aggregates (m : CropManager.t) :
  let plants := CropManager._plants m in
  CropManager.get_total_area m
    = (Ok (sum_of_first (map Plant.area plants) (length plants)), m) /\
  (exists yields,
     Forall2 (fun p y => Plant.get_yield_estimate p = Ok y) plants yields /\
     CropManager.get_total_yield_estimate m
       = (Ok (sum_of_first yields (length plants)), m)) /\
  CropManager.get_total_area CropManager.__init__
    = (Ok (Float.of_int 0), CropManager.__init__) /\
  CropManager.get_total_yield_estimate CropManager.__init__
    = (Ok (Float.of_int 0), CropManager.__init__).
Proof.
  intros plants. split; [| split; [| split; reflexivity]].
  - unfold CropManager.get_total_area, gets.
    rewrite sum_is_sum_of_first, length_map. reflexivity.
  - destruct (get_total_yield_estimate_eq m) as (ys & HF & Hys).
    exists ys. split; [exact HF |].
    rewrite Hys, sum_is_sum_of_first. subst plants.
    now rewrite (Forall2_length _ _ _ HF).
Qed.

(** *** The standalone estimator *)

(** C7. When the lowercased crop type is a key of neither table,
    [calculate_yield_estimate] works with rate 5.0 and price 200; the unit
    is ["cubic_meters"] exactly when the lowercased crop type is pine, oak
    or eucalyptus and ["tonnes"] otherwise; [(10, "pine", False)] gives
    unit ["cubic_meters"], and [(10, "wheat", True)] gives
    [yield_tonnes = 28.0] and [estimated_value = 9100.0]. *)
Theorem calculate_yield_estimate_fallback_and_unit :
  (forall (area : float) (crop_type : string) (is_organic : bool),
      utils.yield_rates !! lower crop_type = None ->
      utils.prices !! lower crop_type = None ->
      let y := organic_penalty is_organic (Float.mul area (Float.lit 50 1)) in
      let price :=
        if is_organic then Float.mul (Float.of_int 200) (Float.lit 13 1)
        else Float.of_int 200 in
      utils.calculate_yield_estimate area crop_type is_organic
        = {| utils.yield_tonnes := Float.round y 2;
             utils.estimated_value := Float.round (Float.mul y price) 2;
             utils.per_hectare_yield := Float.lit 50 1;
             utils.unit := "tonnes" |}) /\
  (forall (area : float) (crop_type : string) (is_organic : bool),
      (lower crop_type ∈ ["pine"; "oak"; "eucalyptus"] ->
       utils.unit (utils.calculate_yield_estimate area crop_type is_organic)
         = "cubic_meters") /\
      (lower crop_type ∉ ["pine"; "oak"; "eucalyptus"] ->
       utils.unit (utils.calculate_yield_estimate area crop_type is_organic)
         = "tonnes")) /\
  utils.unit (utils.calculate_yield_estimate (Float.of_int 10) "pine" false)
    = "cubic_meters" /\
  utils.yield_tonnes
    (utils.calculate_yield_estimate (Float.of_int 10) "wheat" true)
    = Float.lit 280 1 /\
  utils.estimated_value
    (utils.calculate_yield_estimate (Float.of_int 10) "wheat" true)
    = Float.lit 91000 1.
Proof.
  split; [| split; [| repeat split; vm_compute; reflexivity]].
  - intros area crop_type is_organic Hrate Hprice y price.
    assert (Hunit : lower crop_type ∉ ["pine"; "oak"; "eucalyptus"]).
    { intros Hin. rewrite !elem_of_cons, elem_of_nil in Hin.
      destruct Hin as [E | [E | [E | []]]]; rewrite E in Hrate;
        vm_compute in Hrate; discriminate Hrate. }
    unfold utils.calculate_yield_estimate, dict_get.
    rewrite Hrate, Hprice, (bool_decide_eq_false_2 _ Hunit).
    subst y price. destruct is_organic; reflexivity.
  - intros area crop_type is_organic.
    unfold utils.calculate_yield_estimate. cbn [utils.unit].
    split; intros H.
    + now rewrite (bool_decide_eq_true_2 _ H).
    + now rewrite (bool_decide_eq_false_2 _ H).
Qed.

Lemma calculate_yield_estimate_fallback_and_unit_witness :
  utils.per_hectare_yield
    (utils.calculate_yield_estimate (Float.of_int 4) "Barley" true)
    = Float.lit 50 1 /\
  utils.estimated_value
    (utils.calculate_yield_estimate (Float.of_int 4) "Barley" false)
    = Float.of_int 4000 /\
  utils.unit (utils.calculate_yield_estimate (Float.of_int 4) "OAK" false)
    = "cubic_meters" /\
  utils.unit (utils.calculate_yield_estimate (Float.of_int 4) "Teak" false)
    = "tonnes".
Proof.
  destruct calculate_yield_estimate_fallback_and_unit as (Hfb & Hunit & _).
  split; [| split; [| split]].
  - rewrite (Hfb (Float.of_int 4) "Barley" true eq_refl eq_refl). reflexivity.
  - rewrite (Hfb (Float.of_int 4) "Barley" false eq_refl eq_refl).
    vm_compute. reflexivity.
  - apply (proj1 (Hunit (Float.of_int 4) "OAK" false)).
    apply (bool_decide_eq_true_1 _). vm_compute. reflexivity.
  - apply (proj2 (Hunit (Float.of_int 4) "Teak" false)).
    apply (bool_decide_eq_false_1 _). vm_compute. reflexivity.
Defined.


(** *** Seasonal advice *)

Lemma first_advice_out_of_range (mo : Z) :
  (mo < 1 \/ 12 < mo)%Z ->
  CropAnalyzer.first_advice mo CropAnalyzer.seasons = advice_generic.
Proof.
  intros Hout. unfold CropAnalyzer.seasons, CropAnalyzer.first_advice.
  repeat (rewrite bool_decide_eq_false_2;
          [| rewrite !elem_of_cons, elem_of_nil; lia]).
  reflexivity.
Qed.

(** C8. With an explicit month, [get_seasonal_advice] returns the winter
    string for 12, 1 and 2, the spring string for 3 to 5, the summer string
    for 6 to 8, the autumn string for 9 to 11, and the generic monitoring
    string for every month below 1 or above 12. *)
Theorem seasonal_advice_by_month (now : datetime) (m : CropManager.t) (mo : Z) :
  let advice := fst (CropAnalyzer.get_seasonal_advice now (Some mo) m) in
  ((mo = 12 \/ mo = 1 \/ mo = 2)%Z -> advice = Ok advice_winter) /\
  ((3 <= mo <= 5)%Z -> advice = Ok advice_spring) /\
  ((6 <= mo <= 8)%Z -> advice = Ok advice_summer) /\
  ((9 <= mo <= 11)%Z -> advice = Ok advice_autumn) /\
  ((mo < 1 \/ 12 < mo)%Z -> advice = Ok advice_generic).
Proof.
  intros advice.
  assert (Hadv : advice = Ok (CropAnalyzer.first_advice mo CropAnalyzer.seasons))
    by reflexivity.
  rewrite Hadv. clear Hadv advice. repeat split.
  - intros [-> | [-> | ->]]; reflexivity.
  - intros H. assert (mo = 3 \/ mo = 4 \/ mo = 5)%Z as [-> | [-> | ->]] by lia;
      reflexivity.
  - intros H. assert (mo = 6 \/ mo = 7 \/ mo = 8)%Z as [-> | [-> | ->]] by lia;
      reflexivity.
  - intros H. assert (mo = 9 \/ mo = 10 \/ mo = 11)%Z as [-> | [-> | ->]] by lia;
      reflexivity.
  - intros H. now rewrite first_advice_out_of_range.
Qed.

Lemma seasonal_advice_by_month_witness :
  fst (CropAnalyzer.get_seasonal_advice noon (Some 1%Z) CropManager.__init__)
    = Ok advice_winter /\
  fst (CropAnalyzer.get_seasonal_advice noon (Some 12%Z) CropManager.__init__)
    = Ok advice_winter /\
  fst (CropAnalyzer.get_seasonal_advice noon (Some 4%Z) CropManager.__init__)
    = Ok advice_spring /\
  fst (CropAnalyzer.get_seasonal_advice noon (Some 7%Z) CropManager.__init__)
    = Ok advice_summer /\
  fst (CropAnalyzer.get_seasonal_advice noon (Some 10%Z) CropManager.__init__)
    = Ok advice_autumn /\
  fst (CropAnalyzer.get_seasonal_advice noon (Some 0%Z) CropManager.__init__)
    = Ok advice_generic /\
  fst (CropAnalyzer.get_seasonal_advice noon (Some 13%Z) CropManager.__init__)
    = Ok advice_generic.
Proof.
  repeat match goal with |- _ /\ _ => split end.
  - apply (seasonal_advice_by_month noon CropManager.__init__ 1). lia.
  - apply (seasonal_advice_by_month noon CropManager.__init__ 12). lia.
  - apply (seasonal_advice_by_month noon CropManager.__init__ 4). lia.
  - apply (seasonal_advice_by_month noon CropManager.__init__ 7). lia.
  - apply (seasonal_advice_by_month noon CropManager.__init__ 10). lia.
  - apply (seasonal_advice_by_month noon CropManager.__init__ 0). lia.
  - apply (seasonal_advice_by_month noon CropManager.__init__ 13). lia.
Defined.

(** *** The analyzer only reads *)

Lemma read_only_get_statistics : read_only CropAnalyzer.get_statistics.
Proof.
  unfold CropAnalyzer.get_statistics, CropManager.get_all_crops,
    CropManager.get_crops_by_type, CropManager.get_total_area,
    CropManager.get_total_yield_estimate.
  auto 20 with read_only.
Qed.

Lemma read_only_get_detailed_analysis (now : datetime) :
  read_only (CropAnalyzer.get_detailed_analysis now).
Proof.
  unfold CropAnalyzer.get_detailed_analysis.
  apply read_only_bind; [apply read_only_get_statistics | intros st].
  apply read_only_bind; [apply read_only_gets | intros crops].
  apply read_only_if; [apply read_only_ret |].
  apply read_only_bind.
  - apply read_only_if; [| apply read_only_ret].
    unfold CropManager.get_crops_by_type. auto 10 with read_only.
  - intros a2. auto 10 with read_only.
Qed.

Lemma read_only_get_seasonal_advice (now : datetime) (current_month : option Z) :
  read_only (CropAnalyzer.get_seasonal_advice now current_month).
Proof. unfold CropAnalyzer.get_seasonal_advice. apply read_only_ret. Qed.

(** C9. [get_statistics], [get_detailed_analysis] and
    [get_seasonal_advice] hand the registry back exactly as they received
    it: same plants, same order, same fields. *)
Theorem analyzer_leaves_registry_unchanged
    (now : datetime) (current_month : option Z) (m : CropManager.t) :
  snd (CropAnalyzer.get_statistics m) = m /\
  snd (CropAnalyzer.get_detailed_analysis now m) = m /\
  snd (CropAnalyzer.get_seasonal_advice now current_month m) = m.
Proof.
  split; [| split].
  - apply read_only_get_statistics.
  - apply read_only_get_detailed_analysis.
  - apply read_only_get_seasonal_advice.
Qed.

(** *** What [add_crop] builds *)

(** C10. Whatever its arguments, [add_crop] succeeds, appends the plant it
    returns, and that plant is a [Crop] or a [Forest], never an
    [Agriculture]: it carries no organic flag and its yield estimate is
    area times the table rate, without the organic penalty. *)
Theorem add_crop_never_builds_Agriculture
    (now : datetime) (name plant_type : string) (area : float)
    (subtype : string) (m : CropManager.t) :
  exists p,
    CropManager.add_crop now name plant_type area subtype m
      = (Ok p, {| CropManager._plants := CropManager._plants m ++ [p] |}) /\
    (p = Plant.OfCrop (Crop.__init__ now name area subtype) \/
     p = Plant.OfForest (Forest.__init__ now name area subtype)) /\
    (forall a, p <> Plant.OfAgriculture a) /\
    is_organic p = false /\
    exists dflt,
      Plant.yield_table p !! "default" = Some dflt /\
      Plant.get_yield_estimate p
        = Ok (Float.mul area
                (default dflt (Plant.yield_table p !! lower subtype))).
Proof.
  destruct (add_crop_result now name plant_type area subtype m)
    as (p & Hp & Hkind).
  exists p. split; [exact Hp |]. split; [exact Hkind |].
  destruct Hkind as [-> | ->].
  - split; [discriminate |]. split; [reflexivity |].
    exists (Float.lit 50 1). split; [exact Crop_default_rate |].
    cbn [Plant.get_yield_estimate Plant.yield_table].
    now rewrite Crop_get_yield_estimate_eq.
  - split; [discriminate |]. split; [reflexivity |].
    exists (Float.lit 120 1). split; [exact Forest_default_rate |].
    cbn [Plant.get_yield_estimate Plant.yield_table].
    now rewrite Forest_get_yield_estimate_eq.
Qed.

Lemma remove_first_subset (name : string) (plants plants' : list Plant.t) :
  CropManager.remove_first name plants = Some plants' ->
  forall p, p ∈ plants' -> p ∈ plants.
Proof.
  revert plants'. induction plants as [| q plants IH]; intros plants'; cbn.
  - discriminate.
  - destruct (String.eqb (Plant.name q) name).
    + intros [= <-] p Hp. now apply elem_of_cons; right.
    + destruct (CropManager.remove_first name plants) as [rest |];
        [| discriminate].
      intros [= <-] p Hp. apply elem_of_cons in Hp as [-> | Hp].
      * apply elem_of_cons; now left.
      * apply elem_of_cons; right. now apply (IH rest).
Qed.

(** No registry built through the manager's methods holds an
    [Agriculture] entity. *)
Lemma built_no_Agriculture (m : CropManager.t) :
  built m ->
  forall p, p ∈ CropManager._plants m -> forall a, p <> Plant.OfAgriculture a.
Proof.
  induction 1 as [| now name plant_type area subtype m Hm IH | name m Hm IH];
    intros p Hp.
  - cbn in Hp. now apply elem_of_nil in Hp.
  - destruct (add_crop_result now name plant_type area subtype m)
      as (q & Hq & Hkind).
    rewrite Hq in Hp. cbn in Hp.
    apply elem_of_app in Hp as [Hp | Hp]; [now apply IH |].
    apply list_elem_of_singleton in Hp as ->.
    destruct Hkind as [-> | ->]; discriminate.
  - unfold CropManager.remove_crop in Hp.
    destruct (CropManager.remove_first name (CropManager._plants m))
      as [rest |] eqn:Hrm; cbn in Hp.
    + apply IH. now apply (remove_first_subset name _ rest).
    + now apply IH.
Qed.

(** * Further properties *)

Local Open Scope list_scope.

Lemma Plant_base_with_base (p : Plant.t) (b : BasePlant.t) :
  Plant.base (Plant.with_base p b) = b.
Proof. destruct p as [c | f | [c o]]; reflexivity. Qed.

Lemma identity_of_with_base (p : Plant.t) (b : BasePlant.t) :
  BasePlant._name b = Plant.name p ->
  BasePlant._planting_date b = BasePlant._planting_date (Plant.base p) ->
  identity_of (Plant.with_base p b) = identity_of p.
Proof.
  unfold identity_of, Plant.name, BasePlant.name.
  destruct p as [c | f | [c o]]; cbn; intros -> ->; reflexivity.
Qed.

(** X1. [area = value] with a value that is not [<= 0] succeeds: the area
    becomes [value], and status, name, planting date, type, subtype and
    organic flag stay as they were. *)
Theorem set_area_success (value : float) (p : Plant.t) :
  Float.leb value (Float.of_int 0) = false ->
  exists p',
    Plant.set_area value p = (Ok tt, p') /\
    Plant.area p' = value /\
    Plant.status p' = Plant.status p /\
    identity_of p' = identity_of p.
Proof.
  intros Hle.
  unfold Plant.set_area, Plant.inherited, BasePlant.set_area.
  rewrite Hle. cbn. eexists. split; [reflexivity |].
  destruct p as [[b s] | [b s] | [[b s] o]]; cbn; auto.
Qed.

Lemma set_area_success_witness :
  exists p',
    Plant.set_area (Float.lit 125 1) wheat_field = (Ok tt, p') /\
    Plant.area p' = Float.lit 125 1 /\
    Plant.status p' = Plant.status wheat_field /\
    identity_of p' = identity_of wheat_field.
Proof. apply (set_area_success (Float.lit 125 1) wheat_field). reflexivity. Defined.

(** X2. [status = value] with one of the five valid strings succeeds: the
    status becomes [value], and area, name, planting date, type, subtype
    and organic flag stay as they were. *)
Theorem set_status_success (value : string) (p : Plant.t) :
  value ∈ BasePlant.valid_statuses ->
  exists p',
    Plant.set_status value p = (Ok tt, p') /\
    Plant.status p' = value /\
    Plant.area p' = Plant.area p /\
    identity_of p' = identity_of p.
Proof.
  intros Hin.
  unfold Plant.set_status, Plant.inherited, BasePlant.set_status.
  rewrite (bool_decide_eq_true_2 _ Hin). cbn. eexists. split; [reflexivity |].
  destruct p as [[b s] | [b s] | [[b s] o]]; cbn; auto.
Qed.

Lemma set_status_success_witness :
  exists p',
    Plant.set_status "harvested" wheat_field = (Ok tt, p') /\
    Plant.status p' = "harvested" /\
    Plant.area p' = Plant.area wheat_field /\
    identity_of p' = identity_of wheat_field.
Proof.
  apply (set_status_success "harvested" wheat_field).
  apply (bool_decide_eq_true_1 _). vm_compute. reflexivity.
Defined.

Lemma setter_step_identity (p p' : Plant.t) :
  setter_step p p' -> identity_of p' = identity_of p.
Proof.
  intros [value q | value q].
  - unfold Plant.set_area, Plant.inherited, BasePlant.set_area.
    destruct (Float.leb value (Float.of_int 0)); cbn.
    + now rewrite Plant_with_base_base.
    + now apply identity_of_with_base.
  - unfold Plant.set_status, Plant.inherited, BasePlant.set_status.
    destruct (bool_decide (value ∈ BasePlant.valid_statuses)); cbn.
    + now apply identity_of_with_base.
    + now rewrite Plant_with_base_base.
Qed.

Lemma setter_step_status (p p' : Plant.t) :
  setter_step p p' ->
  Plant.status p ∈ BasePlant.valid_statuses ->
  Plant.status p' ∈ BasePlant.valid_statuses.
Proof.
  intros [value q | value q] Hq.
  - unfold Plant.set_area, Plant.inherited, BasePlant.set_area.
    destruct (Float.leb value (Float.of_int 0)); cbn.
    + now rewrite Plant_with_base_base.
    + unfold Plant.status. now rewrite Plant_base_with_base.
  - unfold Plant.set_status, Plant.inherited, BasePlant.set_status.
    destruct (bool_decide (value ∈ BasePlant.valid_statuses)) eqn:Hv; cbn.
    + unfold Plant.status. rewrite Plant_base_with_base. cbn.
      now apply bool_decide_eq_true_1 in Hv.
    + now rewrite Plant_with_base_base.
Qed.

(** X3. No sequence of [area] and [status] assignments, accepted or
    refused, changes an entity's name, planting date, type, subtype or
    organic flag. *)
Theorem setters_preserve_identity (p p' : Plant.t) :
  rtc setter_step p p' ->
  Plant.name p' = Plant.name p /\
  BasePlant._planting_date (Plant.base p') = BasePlant._planting_date (Plant.base p) /\
  Plant.get_type p' = Plant.get_type p /\
  Plant.subtype p' = Plant.subtype p /\
  is_organic p' = is_organic p.
Proof.
  intros H.
  assert (Hid : identity_of p' = identity_of p).
  { induction H as [| p q r Hstep _ IH]; [reflexivity |].
    rewrite IH. now apply setter_step_identity. }
  unfold identity_of in Hid. injection Hid as -> -> -> -> ->. auto.
Qed.

Lemma setters_preserve_identity_witness :
  Plant.name (snd (Plant.set_status "growing" (snd (Plant.set_area (Float.of_int 3) wheat_field))))
    = "FieldA".
Proof.
  apply (setters_preserve_identity wheat_field).
  eapply rtc_l; [apply step_set_area |].
  eapply rtc_l; [apply step_set_status |]. apply rtc_refl.
Defined.

(** X4. An entity built by any of the three constructors and then put
    through any sequence of [area] and [status] assignments has one of the
    five valid statuses. *)
Theorem status_always_valid (p0 p : Plant.t) :
  fresh p0 -> rtc setter_step p0 p ->
  Plant.status p ∈ BasePlant.valid_statuses.
Proof.
  intros Hfresh H.
  assert (H0 : Plant.status p0 ∈ BasePlant.valid_statuses).
  { destruct Hfresh; cbn; apply elem_of_cons; now left. }
  clear Hfresh. induction H as [| p q r Hstep _ IH]; [exact H0 |].
  apply IH. now apply (setter_step_status p q).
Qed.

Lemma status_always_valid_witness :
  Plant.status (snd (Plant.set_status "ripe" (snd (Plant.set_status "dormant" wheat_field))))
    ∈ BasePlant.valid_statuses.
Proof.
  apply (status_always_valid wheat_field).
  - apply fresh_Crop.
  - eapply rtc_l; [apply step_set_status |].
    eapply rtc_l; [apply step_set_status |]. apply rtc_refl.
Defined.

Lemma lower_ascii_idempotent (c : ascii) : lower_ascii (lower_ascii c) = lower_ascii c.
Proof. destruct c as [[] [] [] [] [] [] [] []]; reflexivity. Qed.

(** [lower_ascii] yields a byte of the Kelvin sign only from that byte. *)
Lemma lower_ascii_kelvin_byte (c x : ascii) :
  x = "226"%char \/ x = "132"%char \/ x = "170"%char ->
  lower_ascii c = x -> c = x.
Proof.
  intros [-> | [-> | ->]];
    destruct c as [[] [] [] [] [] [] [] []]; vm_compute;
    intros H; try reflexivity; discriminate H.
Qed.

Lemma kelvin_sign_true (c0 c1 c2 : ascii) :
  kelvin_sign c0 c1 c2 = true <->
  c0 = "226"%char /\ c1 = "132"%char /\ c2 = "170"%char.
Proof.
  unfold kelvin_sign. rewrite !andb_true_iff, !Ascii.eqb_eq. tauto.
Qed.

(** The two cases of [lower] on a non-empty string. *)
Lemma lower_cons_cases (c : ascii) (s : string) :
  (exists s'', s = String "132" (String "170" s'') /\ c = "226"%char /\
               lower (String c s) = String "k" (lower s'')) \/
  ((forall s'', c = "226"%char -> s <> String "132" (String "170" s'')) /\
   lower (String c s) = String (lower_ascii c) (lower s)).
Proof.
  destruct s as [| c1 [| c2 s'']].
  - right. split; [discriminate | reflexivity].
  - right. split; [discriminate | reflexivity].
  - cbn [lower]. destruct (kelvin_sign c c1 c2) eqn:Hk.
    + apply kelvin_sign_true in Hk as (-> & -> & ->). left. eauto.
    + right. split; [| reflexivity].
      intros t -> [= -> -> _]. discriminate Hk.
Qed.

(** A lowered string starts with the second or third Kelvin byte only if
    the string itself does. *)
Lemma lower_starts_with_kelvin_byte (s r : string) (x : ascii) :
  x = "132"%char \/ x = "170"%char ->
  lower s = String x r -> exists s1, s = String x s1 /\ r = lower s1.
Proof.
  intros Hx Hs. destruct s as [| c s]; [discriminate Hs |].
  destruct (lower_cons_cases c s) as [(s'' & _ & _ & Hl) | [_ Hl]];
    rewrite Hl in Hs; injection Hs as Hc Hr.
  - destruct Hx as [-> | ->]; discriminate Hc.
  - apply lower_ascii_kelvin_byte in Hc; [| tauto]. subst c. eauto.
Qed.

Lemma lower_idempotent_upto (n : nat) (s : string) :
  (String.length s <= n)%nat -> lower (lower s) = lower s.
Proof.
  revert s. induction n as [| n IH]; intros s Hn.
  - destruct s; [reflexivity | cbn in Hn; lia].
  - destruct s as [| c s]; [reflexivity |]. cbn [String.length] in Hn.
    destruct (lower_cons_cases c s) as [(s'' & -> & -> & Hl) | [Hnk Hl]];
      rewrite Hl.
    + cbn [String.length] in Hn.
      destruct (lower_cons_cases "k" (lower s'')) as [(t & _ & [=] & _) | [_ Hl']].
      rewrite Hl'. rewrite (IH s'') by lia. reflexivity.
    + destruct (lower_cons_cases (lower_ascii c) (lower s))
        as [(t & Ht & Hc & _) | [_ Hl']].
      * exfalso. apply lower_ascii_kelvin_byte in Hc; [| tauto].
        apply lower_starts_with_kelvin_byte in Ht as (s1 & -> & Ht); [| tauto].
        symmetry in Ht.
        apply lower_starts_with_kelvin_byte in Ht as (s2 & -> & _); [| tauto].
        now apply (Hnk s2).
      * rewrite Hl', lower_ascii_idempotent, (IH s) by lia. reflexivity.
Qed.

Lemma lower_idempotent (s : string) : lower (lower s) = lower s.
Proof. now apply (lower_idempotent_upto (String.length s)). Qed.

(** ["OA" + U+212A] lowercases to ["oak"], as in Python. *)
Example lower_kelvin_sign :
  lower (String "O" (String "A" (String "226" (String "132" (String "170" "")))))
  = "oak".
Proof. reflexivity. Qed.

(** On that string the estimators find the key ["oak"]: rate 8.0 in cubic
    meters, and a carbon sink. *)
Example estimators_on_kelvin_sign :
  let oak := String "O" (String "A" (String "226" (String "132" (String "170" "")))) in
  utils.per_hectare_yield (utils.calculate_yield_estimate (Float.of_int 2) oak false)
    = Float.lit 80 1 /\
  utils.yield_tonnes (utils.calculate_yield_estimate (Float.of_int 2) oak false)
    = Float.of_int 16 /\
  utils.unit (utils.calculate_yield_estimate (Float.of_int 2) oak false)
    = "cubic_meters" /\
  utils.cf_type <$> result_to_option (utils.calculate_carbon_footprint (Float.of_int 2) oak)
    = Some "carbon_sink".
Proof. repeat split; vm_compute; reflexivity. Qed.

(** Turns a lookup at a symbolic key in a literal table into the cases of
    the key. *)
Ltac table_cases H :=
  cbn [list_to_map foldr fst snd uncurry] in H;
  rewrite ?lookup_insert, ?lookup_empty in H;
  repeat case_decide; simplify_eq.

Lemma water_rate_range (k : string) (rate : Z) :
  Crop.water_needs !! k = Some rate -> (4500 <= rate <= 12000)%Z.
Proof. unfold Crop.water_needs. intros H. table_cases H; lia. Qed.

Lemma Crop_default_water : Crop.water_needs !! "default" = Some 5000%Z.
Proof. vm_compute. reflexivity. Qed.

(** X5. [Crop.get_water_requirement] never raises: it is area times a
    rate between 4500 and 12000, and the rate is 5000 when the subtype is
    not in the table. *)
Theorem water_requirement_total (c : Crop.t) :
  exists rate : Z,
    Crop.get_water_requirement c
      = Ok (Float.mul (BasePlant._area (Crop.base c)) (Float.of_int rate)) /\
    (4500 <= rate <= 12000)%Z /\
    (Crop.water_needs !! Crop._crop_subtype c = None -> rate = 5000%Z).
Proof.
  unfold Crop.get_water_requirement, dict_item, dict_get.
  rewrite Crop_default_water.
  destruct (Crop.water_needs !! Crop._crop_subtype c) as [rate |] eqn:Hk; cbn.
  - exists rate. split; [reflexivity |]. split; [| discriminate].
    now apply (water_rate_range (Crop._crop_subtype c)).
  - exists 5000%Z. split; [reflexivity |]. split; [lia | reflexivity].
Qed.

Lemma water_requirement_total_witness :
  exists rate : Z,
    Crop.get_water_requirement (Crop.__init__ noon "FieldC" (Float.of_int 2) "Barley")
      = Ok (Float.mul (Float.of_int 2) (Float.of_int rate)) /\
    rate = 5000%Z.
Proof.
  destruct (water_requirement_total
              (Crop.__init__ noon "FieldC" (Float.of_int 2) "Barley"))
    as (rate & Hw & _ & Hdflt).
  exists rate. split; [exact Hw | apply Hdflt; reflexivity].
Defined.

Lemma sequestration_agrees (k : string) (rate : float) :
  utils.sequestration !! k = Some rate -> Forest.carbon_rates !! k = Some rate.
Proof.
  unfold utils.sequestration. intros H. table_cases H; reflexivity.
Qed.

(** X6. For a tree type whose lowercase is in the sequestration table,
    [calculate_carbon_footprint] reports a carbon sink whose
    [annual_sequestration] is [Forest.get_carbon_sequestration] of a forest
    of that area and type, rounded to two decimals. *)
Theorem carbon_footprint_matches_forest
    (now : datetime) (name : string) (area : float) (tree_type : string) :
  is_Some (utils.sequestration !! lower tree_type) ->
  exists carbon,
    Forest.get_carbon_sequestration (Forest.__init__ now name area tree_type)
      = Ok carbon /\
    utils.calculate_carbon_footprint area tree_type
      = Ok {| utils.cf_type := "carbon_sink";
              utils.annual_sequestration := Some (Float.round carbon 2);
              utils.annual_emissions := None;
              utils.cf_unit := "tonnes_CO2_per_year";
              utils.climate_impact := "positive" |}.
Proof.
  intros Hin. pose proof Hin as [rate Hrate].
  unfold utils.calculate_carbon_footprint, Forest.get_carbon_sequestration,
    dict_item, dict_get.
  rewrite (bool_decide_eq_true_2 _ Hin), Hrate, Forest_default_carbon.
  cbn [Forest.__init__ Forest._tree_type Forest.base BasePlant.__init__
       BasePlant._area].
  rewrite (sequestration_agrees _ _ Hrate). cbn [default].
  eexists. split; reflexivity.
Qed.

Lemma carbon_footprint_matches_forest_witness :
  exists carbon,
    Forest.get_carbon_sequestration (Forest.__init__ noon "WoodsB" (Float.of_int 5) "Pine")
      = Ok carbon /\
    utils.calculate_carbon_footprint (Float.of_int 5) "Pine"
      = Ok {| utils.cf_type := "carbon_sink";
              utils.annual_sequestration := Some (Float.round carbon 2);
              utils.annual_emissions := None;
              utils.cf_unit := "tonnes_CO2_per_year";
              utils.climate_impact := "positive" |}.
Proof.
  apply (carbon_footprint_matches_forest noon "WoodsB" (Float.of_int 5) "Pine").
  vm_compute. eauto.
Defined.

(** X7. For a type whose lowercase is not in the sequestration table,
    [calculate_carbon_footprint] reports a carbon source; the emission rate
    is the table entry, or 0.5 when the type is in neither table. *)
Theorem carbon_footprint_source (area : float) (crop_type : string) :
  utils.sequestration !! lower crop_type = None ->
  exists rate,
    utils.calculate_carbon_footprint area crop_type
      = Ok {| utils.cf_type := "carbon_source";
              utils.annual_sequestration := None;
              utils.annual_emissions := Some (Float.round (Float.mul area rate) 2);
              utils.cf_unit := "tonnes_CO2_per_year";
              utils.climate_impact := "negative" |} /\
    (utils.emissions !! lower crop_type = None -> rate = Float.lit 5 1) /\
    (forall r, utils.emissions !! lower crop_type = Some r -> rate = r).
Proof.
  intros Hnone.
  unfold utils.calculate_carbon_footprint, dict_get.
  rewrite bool_decide_eq_false_2 by (rewrite Hnone; apply is_Some_None).
  eexists. split; [reflexivity |].
  destruct (utils.emissions !! lower crop_type); cbn; split; congruence.
Qed.

Lemma carbon_footprint_source_witness :
  exists rate,
    utils.calculate_carbon_footprint (Float.of_int 2) "Barley"
      = Ok {| utils.cf_type := "carbon_source";
              utils.annual_sequestration := None;
              utils.annual_emissions :=
                Some (Float.round (Float.mul (Float.of_int 2) rate) 2);
              utils.cf_unit := "tonnes_CO2_per_year";
              utils.climate_impact := "negative" |} /\
    rate = Float.lit 5 1.
Proof.
  destruct (carbon_footprint_source (Float.of_int 2) "Barley" eq_refl)
    as (rate & H & Hdflt & _).
  exists rate. split; [exact H | apply Hdflt; reflexivity].
Defined.

Lemma yield_rate_agrees_crop (k : string) :
  k ∉ ["pine"; "oak"; "eucalyptus"] ->
  dict_get utils.yield_rates k (Float.lit 50 1)
    = default (Float.lit 50 1) (Crop.YIELD_RATES !! k).
Proof.
  intros Hk. unfold dict_get.
  destruct (utils.yield_rates !! k) as [r |] eqn:Hu;
    destruct (Crop.YIELD_RATES !! k) as [r' |] eqn:Hc;
    unfold utils.yield_rates in Hu; unfold Crop.YIELD_RATES in Hc;
    table_cases Hu; table_cases Hc; try reflexivity;
    exfalso; apply Hk; rewrite !elem_of_cons; auto.
Qed.

Lemma price_agrees_crop (k : string) (price : Z) :
  k ∉ ["pine"; "oak"; "eucalyptus"] ->
  utils.prices !! k = Some price ->
  Agriculture.base_prices !! k = Some price.
Proof.
  intros Hk Hu. unfold utils.prices in Hu. table_cases Hu; try reflexivity;
    exfalso; apply Hk; rewrite !elem_of_cons; auto.
Qed.

(** X8. For a crop type other than pine, oak and eucalyptus (in any
    case), [calculate_yield_estimate] reports in tonnes the yield estimate
    of the [Agriculture] entity of that area, type and organic flag,
    rounded to two decimals; when not organic and the type has a price in
    the estimator's table, its [estimated_value] is the entity's market
    value rounded to two decimals. *)
Theorem estimator_matches_agriculture
    (now : datetime) (name : string) (area : float) (crop_type : string)
    (is_organic : bool) :
  lower crop_type ∉ ["pine"; "oak"; "eucalyptus"] ->
  let entity := Agriculture.__init__ now name area crop_type is_organic in
  let estimate := utils.calculate_yield_estimate area crop_type is_organic in
  exists y,
    Agriculture.get_yield_estimate entity = Ok y /\
    utils.yield_tonnes estimate = Float.round y 2 /\
    utils.unit estimate = "tonnes" /\
    (is_organic = false ->
     is_Some (utils.prices !! lower crop_type) ->
     exists value,
       Agriculture.get_market_value entity = Ok value /\
       utils.estimated_value estimate = Float.round value 2).
Proof.
  intros Hk entity estimate. subst entity estimate.
  unfold utils.calculate_yield_estimate, Agriculture.get_market_value,
    Agriculture.get_yield_estimate, dict_item.
  cbn [Agriculture.__init__ Agriculture.crop Agriculture._is_organic].
  rewrite Crop_get_yield_estimate_eq, Agriculture_default_price,
    (bool_decide_eq_false_2 _ Hk), yield_rate_agrees_crop by exact Hk.
  cbn [Crop.__init__ Crop._crop_subtype Crop.base BasePlant.__init__
       BasePlant._area utils.yield_tonnes utils.unit utils.estimated_value
       negb].
  destruct is_organic.
  - eexists. split; [reflexivity |]. split; [reflexivity |].
    split; [reflexivity | discriminate].
  - eexists. split; [reflexivity |]. split; [reflexivity |].
    split; [reflexivity |]. intros _ [price Hprice].
    eexists. split; [reflexivity |].
    unfold dict_get. rewrite Hprice, (price_agrees_crop _ _ Hk Hprice).
    reflexivity.
Qed.

Lemma estimator_matches_agriculture_witness :
  exists y,
    Agriculture.get_yield_estimate
      (Agriculture.__init__ noon "FieldA" (Float.of_int 10) "Rice" false) = Ok y /\
    utils.yield_tonnes
      (utils.calculate_yield_estimate (Float.of_int 10) "Rice" false)
      = Float.round y 2 /\
    exists value,
      Agriculture.get_market_value
        (Agriculture.__init__ noon "FieldA" (Float.of_int 10) "Rice" false)
        = Ok value /\
      utils.estimated_value
        (utils.calculate_yield_estimate (Float.of_int 10) "Rice" false)
        = Float.round value 2.
Proof.
  assert (Hk : lower "Rice" ∉ ["pine"; "oak"; "eucalyptus"]).
  { apply (bool_decide_eq_false_1 _). vm_compute. reflexivity. }
  destruct (estimator_matches_agriculture noon "FieldA" (Float.of_int 10)
              "Rice" false Hk) as (y & Hy & Ht & _ & Hv).
  exists y. split; [exact Hy |]. split; [exact Ht |].
  apply Hv; [reflexivity |]. vm_compute. eauto.
Defined.

Lemma timber_rate_agrees (k : string) :
  k ∈ ["pine"; "oak"; "eucalyptus"] ->
  dict_get utils.yield_rates k (Float.lit 50 1)
    = default (Float.lit 120 1) (Forest.TIMBER_RATES !! k).
Proof.
  rewrite !elem_of_cons, elem_of_nil.
  intros [-> | [-> | [-> | []]]]; vm_compute; reflexivity.
Qed.

(** X9. For pine, oak and eucalyptus (in any case), the non-organic
    [calculate_yield_estimate] reports in cubic meters the yield estimate
    of the [Forest] of that area and type, rounded to two decimals. *)
Theorem estimator_matches_forest
    (now : datetime) (name : string) (area : float) (tree_type : string) :
  lower tree_type ∈ ["pine"; "oak"; "eucalyptus"] ->
  let estimate := utils.calculate_yield_estimate area tree_type false in
  exists y,
    Forest.get_yield_estimate (Forest.__init__ now name area tree_type) = Ok y /\
    utils.yield_tonnes estimate = Float.round y 2 /\
    utils.unit estimate = "cubic_meters".
Proof.
  intros Hk estimate. subst estimate.
  unfold utils.calculate_yield_estimate.
  rewrite Forest_get_yield_estimate_eq, (bool_decide_eq_true_2 _ Hk),
    timber_rate_agrees by exact Hk.
  eexists. split; [reflexivity |]. split; reflexivity.
Qed.

Lemma estimator_matches_forest_witness :
  exists y,
    Forest.get_yield_estimate (Forest.__init__ noon "WoodsB" (Float.of_int 5) "OAK")
      = Ok y /\
    utils.yield_tonnes (utils.calculate_yield_estimate (Float.of_int 5) "OAK" false)
      = Float.round y 2 /\
    utils.unit (utils.calculate_yield_estimate (Float.of_int 5) "OAK" false)
      = "cubic_meters".
Proof.
  apply (estimator_matches_forest noon "WoodsB" (Float.of_int 5) "OAK").
  apply (bool_decide_eq_true_1 _). vm_compute. reflexivity.
Defined.

(** X10. Letter case is ignored: [add_crop] and [get_crops_by_type] give
    the same result on a lowercased kind and subtype, and so do
    [calculate_yield_estimate] and [calculate_carbon_footprint] on a
    lowercased type. *)
Theorem kinds_and_subtypes_ignore_case
    (now : datetime) (name plant_type : string) (area : float)
    (subtype : string) (is_organic : bool) (m : CropManager.t) :
  CropManager.add_crop now name (lower plant_type) area (lower subtype) m
    = CropManager.add_crop now name plant_type area subtype m /\
  CropManager.get_crops_by_type (lower plant_type) m
    = CropManager.get_crops_by_type plant_type m /\
  utils.calculate_yield_estimate area (lower subtype) is_organic
    = utils.calculate_yield_estimate area subtype is_organic /\
  utils.calculate_carbon_footprint area (lower subtype)
    = utils.calculate_carbon_footprint area subtype.
Proof.
  unfold CropManager.add_crop, CropManager.get_crops_by_type,
    utils.calculate_yield_estimate, utils.calculate_carbon_footprint,
    Crop.__init__, Forest.__init__.
  rewrite !lower_idempotent. auto.
Qed.

(** X11. Once the clock has reached the planting date,
    [days_since_planting] is never negative and never decreases as the
    clock advances; it is 0 during the first 24 hours. *)
Theorem days_since_planting_monotone (p : Plant.t) (now later : datetime) :
  (ticks (BasePlant._planting_date (Plant.base p)) <= ticks now)%Z ->
  (ticks now <= ticks later)%Z ->
  (0 <= Plant.days_since_planting now p <= Plant.days_since_planting later p)%Z /\
  ((ticks now - ticks (BasePlant._planting_date (Plant.base p)) < 86400000000)%Z ->
   Plant.days_since_planting now p = 0%Z).
Proof.
  intros H0 H1.
  unfold Plant.days_since_planting, BasePlant.days_since_planting, days_between.
  split; [split |].
  - apply Z.div_pos; lia.
  - apply Z.div_le_mono; lia.
  - intros Hlt. apply Z.div_small. lia.
Qed.

Lemma days_since_planting_monotone_witness :
  (0 <= Plant.days_since_planting noon wheat_field
     <= Plant.days_since_planting
          {| ticks := 1700000000000000 + 3 * 86400000000; month := 11 |}
          wheat_field)%Z /\
  Plant.days_since_planting noon wheat_field = 0%Z.
Proof.
  destruct (days_since_planting_monotone wheat_field noon
              {| ticks := 1700000000000000 + 3 * 86400000000; month := 11 |})
    as [H1 H2]; [cbn; lia | cbn; lia |].
  split; [exact H1 | apply H2; cbn; lia].
Defined.

Lemma CropManager_eta (m : CropManager.t) :
  {| CropManager._plants := CropManager._plants m |} = m.
Proof. now destruct m. Qed.

Lemma remove_first_cases (name : string) (plants : list Plant.t) :
  (Forall (fun p => Plant.name p <> name) plants /\
   CropManager.remove_first name plants = None) \/
  (exists (before : list Plant.t) (p : Plant.t) (after : list Plant.t),
     plants = (before ++ p :: after)%list /\
     Forall (fun q => Plant.name q <> name) before /\
     Plant.name p = name /\
     CropManager.remove_first name plants = Some (before ++ after)%list).
Proof.
  induction plants as [| q plants IH]; cbn.
  - left. split; [constructor | reflexivity].
  - destruct (String.eqb_spec (Plant.name q) name) as [Heq | Hne].
    + right. exists [], q, plants. repeat split; auto.
    + destruct IH as [[Hall ->] | (before & p & after & -> & Hb & Hp & ->)].
      * left. split; [now constructor | reflexivity].
      * right. exists (q :: before), p, after.
        split; [reflexivity |]. split; [now constructor |]. split; auto.
Qed.

(** X12. [remove_crop(name)] either finds no plant of that name, returns
    [False] and leaves the registry as it is, or returns [True] and deletes
    exactly the first plant of that name, the others keeping their
    order. *)
Theorem remove_crop_first_match (name : string) (m : CropManager.t) :
  (Forall (fun p => Plant.name p <> name) (CropManager._plants m) /\
   CropManager.remove_crop name m = (Ok false, m)) \/
  (exists (before : list Plant.t) (p : Plant.t) (after : list Plant.t),
     CropManager._plants m = (before ++ p :: after)%list /\
     Forall (fun q => Plant.name q <> name) before /\
     Plant.name p = name /\
     CropManager.remove_crop name m
       = (Ok true, {| CropManager._plants := before ++ after |})).
Proof.
  unfold CropManager.remove_crop.
  destruct (remove_first_cases name (CropManager._plants m))
    as [[Hall ->] | (before & p & after & Hm & Hb & Hp & ->)].
  - left. auto.
  - right. exists before, p, after. auto.
Qed.

(** X13. On a registry with no plant called [name], [add_crop(name, ...)]
    followed by [remove_crop(name)] returns [True] and gives the registry
    back as it was. *)
Theorem add_then_remove_restores
    (now : datetime) (name plant_type : string) (area : float)
    (subtype : string) (m : CropManager.t) :
  Forall (fun p => Plant.name p <> name) (CropManager._plants m) ->
  (let! _ := CropManager.add_crop now name plant_type area subtype in
   CropManager.remove_crop name) m = (Ok true, m).
Proof.
  intros Hfresh. unfold bind.
  destruct (add_crop_result now name plant_type area subtype m)
    as (p & -> & Hkind).
  assert (Hname : Plant.name p = name) by (destruct Hkind as [-> | ->]; reflexivity).
  unfold CropManager.remove_crop. cbn [CropManager._plants].
  destruct (remove_first_cases name (CropManager._plants m ++ [p]))
    as [[Hall _] | (before & q & after & Hsplit & Hb & Hq & ->)].
  - cbn in Hall. rewrite Forall_app, Forall_singleton in Hall.
    destruct Hall as [_ Hall]. contradiction.
  - cbn in Hsplit. f_equal. rewrite <- (CropManager_eta m). f_equal.
    assert (Hlen : length before = length (CropManager._plants m)).
    { destruct (Nat.lt_trichotomy (length before) (length (CropManager._plants m)))
        as [Hlt | [Heq | Hgt]]; [| exact Heq |].
      - exfalso.
        assert (Hq' : (CropManager._plants m ++ [p])%list !! length before = Some q).
        { rewrite Hsplit. now rewrite list_lookup_middle. }
        rewrite lookup_app_l in Hq' by exact Hlt.
        apply (proj1 (Forall_lookup _ _) Hfresh) in Hq'. now apply Hq'.
      - exfalso. apply (f_equal length) in Hsplit.
        rewrite !length_app in Hsplit. cbn in Hsplit. lia. }
    apply app_inj_1 in Hsplit as [-> Htail]; [| now symmetry].
    assert (after = []) as ->.
    { destruct after; [reflexivity |]. discriminate Htail. }
    now rewrite app_nil_r.
Qed.

Lemma add_then_remove_restores_witness :
  (let! _ := CropManager.add_crop noon "WoodsB" "forestry" (Float.of_int 5) "pine" in
   CropManager.remove_crop "WoodsB") (registry_of [Float.of_int 10])
  = (Ok true, registry_of [Float.of_int 10]).
Proof.
  apply (add_then_remove_restores noon "WoodsB" "forestry" (Float.of_int 5) "pine").
  repeat constructor. discriminate.
Defined.

Lemma map_result_snoc {A B : Type} (f : A -> result B) (xs : list A) (x : A)
    (ys : list B) (y : B) :
  map_result f xs = Ok ys -> f x = Ok y ->
  map_result f (xs ++ [x]) = Ok (ys ++ [y]).
Proof.
  revert ys. induction xs as [| a xs IH]; intros ys; cbn.
  - intros [= <-] ->. reflexivity.
  - destruct (f a) as [b |]; [| discriminate].
    destruct (map_result f xs) as [bs |]; [| discriminate].
    intros [= <-] Hy. now rewrite (IH bs eq_refl Hy).
Qed.

(** X14. [add_crop] always succeeds and lengthens the registry by one;
    afterwards the total area is the former total plus the new area and
    the total yield estimate is the former total plus the new plant's yield
    estimate (binary64 additions). *)
Theorem add_crop_extends_totals
    (now : datetime) (name plant_type : string) (area : float)
    (subtype : string) (m : CropManager.t) :
  exists p m' total yields y,
    CropManager.add_crop now name plant_type area subtype m = (Ok p, m') /\
    CropManager.get_total_area m = (Ok total, m) /\
    CropManager.get_total_area m' = (Ok (Float.add total area), m') /\
    CropManager.get_total_yield_estimate m = (Ok yields, m) /\
    Plant.get_yield_estimate p = Ok y /\
    CropManager.get_total_yield_estimate m' = (Ok (Float.add yields y), m') /\
    length (CropManager._plants m') = S (length (CropManager._plants m)).
Proof.
  destruct (add_crop_result now name plant_type area subtype m)
    as (p & Hadd & Hkind).
  destruct (map_result_ok Plant.get_yield_estimate (CropManager._plants m)
              Plant_get_yield_estimate_ok) as (ys & Hys & _).
  destruct (Plant_get_yield_estimate_ok p) as [y Hy].
  exists p, {| CropManager._plants := CropManager._plants m ++ [p] |},
    (Float.sum (map Plant.area (CropManager._plants m))), (Float.sum ys), y.
  split; [exact Hadd |]. split; [reflexivity |]. split.
  - unfold CropManager.get_total_area, gets.
    cbn [CropManager._plants]. rewrite map_app.
    change (map Plant.area [p]) with [Plant.area p].
    rewrite Float_sum_snoc.
    now destruct Hkind as [-> | ->].
  - unfold CropManager.get_total_yield_estimate, bind, gets, lift, ret.
    cbn [CropManager._plants].
    rewrite Hys, (map_result_snoc _ _ _ _ _ Hys Hy), Float_sum_snoc.
    repeat split; auto. rewrite length_app. cbn. lia.
Qed.

Lemma Plant_get_type_cases (p : Plant.t) :
  Plant.get_type p = "agriculture" \/ Plant.get_type p = "forestry".
Proof. destruct p; cbn; auto. Qed.

Lemma filter_count_split (plants : list Plant.t) :
  length (filter (fun p => Plant.get_type p = "agriculture") plants)
  + length (filter (fun p => Plant.get_type p = "forestry") plants)
  = length plants.
Proof.
  induction plants as [| p plants IH]; [reflexivity |].
  rewrite !filter_cons.
  destruct p; cbn [Plant.get_type Crop.get_type Forest.get_type];
    repeat case_decide; try discriminate; try contradiction; cbn; lia.
Qed.

(** X15. [get_crops_by_type] splits the registry: the ['agriculture']
    plants followed by the ['forestry'] plants are a permutation of the
    registry, each list holds only plants of its type, and every other type
    string gives the empty list. *)
Theorem get_crops_by_type_partition (m : CropManager.t) :
  exists agriculture forestry,
    CropManager.get_crops_by_type "agriculture" m = (Ok agriculture, m) /\
    CropManager.get_crops_by_type "forestry" m = (Ok forestry, m) /\
    agriculture ++ forestry ≡ₚ CropManager._plants m /\
    (forall p, p ∈ agriculture -> Plant.get_type p = "agriculture") /\
    (forall p, p ∈ forestry -> Plant.get_type p = "forestry") /\
    (forall plant_type,
        lower plant_type <> "agriculture" -> lower plant_type <> "forestry" ->
        CropManager.get_crops_by_type plant_type m = (Ok [], m)).
Proof.
  unfold CropManager.get_crops_by_type, gets. cbn [lower].
  change (lower "agriculture") with "agriculture".
  change (lower "forestry") with "forestry".
  eexists _, _. split; [reflexivity |]. split; [reflexivity |].
  split; [| split; [| split]].
  - rewrite <- (filter_app_complement
                  (fun p => Plant.get_type p = "agriculture")
                  (CropManager._plants m)) at 3.
    apply Permutation_app_head.
    erewrite (list_filter_iff (fun p => Plant.get_type p = "forestry"));
      [reflexivity |].
    intros p. destruct (Plant_get_type_cases p) as [-> | ->];
      split; intros H; try discriminate; try congruence; auto.
  - intros p Hp. now apply list_elem_of_filter in Hp as [Hp _].
  - intros p Hp. now apply list_elem_of_filter in Hp as [Hp _].
  - intros plant_type Ha Hf. f_equal. f_equal.
    induction (CropManager._plants m) as [| p plants IH]; [reflexivity |].
    rewrite filter_cons_False; [exact IH |].
    destruct (Plant_get_type_cases p) as [-> | ->]; congruence.
Qed.

Lemma get_crops_by_type_partition_witness :
  CropManager.get_crops_by_type "Orchard" (registry_of [Float.of_int 10])
    = (Ok [], registry_of [Float.of_int 10]).
Proof.
  destruct (get_crops_by_type_partition (registry_of [Float.of_int 10]))
    as (agriculture & forestry & _ & _ & _ & _ & _ & Hother).
  apply Hother; vm_compute; discriminate.
Defined.

Lemma get_statistics_full (m : CropManager.t) :
  exists yields,
    map_result Plant.get_yield_estimate (CropManager._plants m) = Ok yields /\
    CropAnalyzer.get_statistics m =
    (Ok {| CropAnalyzer.total_crops := length (CropManager._plants m);
           CropAnalyzer.total_area :=
             Float.round (Float.sum (map Plant.area (CropManager._plants m))) 2;
           CropAnalyzer.agriculture_count :=
             length (filter (fun p => Plant.get_type p = "agriculture")
                       (CropManager._plants m));
           CropAnalyzer.forestry_count :=
             length (filter (fun p => Plant.get_type p = "forestry")
                       (CropManager._plants m));
           CropAnalyzer.agriculture_area :=
             Float.round
               (Float.sum (map Plant.area
                  (filter (fun p => Plant.get_type p = "agriculture")
                     (CropManager._plants m)))) 2;
           CropAnalyzer.forestry_area :=
             Float.round
               (Float.sum (map Plant.area
                  (filter (fun p => Plant.get_type p = "forestry")
                     (CropManager._plants m)))) 2;
           CropAnalyzer.total_yield_estimate := Float.round (Float.sum yields) 2 |},
     m).
Proof.
  destruct (map_result_ok Plant.get_yield_estimate (CropManager._plants m)
              Plant_get_yield_estimate_ok) as (ys & Hys & _).
  exists ys. split; [exact Hys |].
  unfold CropAnalyzer.get_statistics, bind, CropManager.get_all_crops,
    CropManager.get_crops_by_type, CropManager.get_total_area,
    CropManager.get_total_yield_estimate, gets, lift, ret, bind.
  now rewrite Hys.
Qed.

(** X16. [get_statistics] never raises; [total_crops] is the number of
    plants and [agriculture_count + forestry_count = total_crops]; on the
    empty registry the four aggregate figures are 0. *)
Theorem statistics_counts_add_up (m : CropManager.t) :
  exists st,
    CropAnalyzer.get_statistics m = (Ok st, m) /\
    CropAnalyzer.total_crops st = length (CropManager._plants m) /\
    (CropAnalyzer.agriculture_count st + CropAnalyzer.forestry_count st
     = CropAnalyzer.total_crops st)%nat /\
    (CropManager._plants m = [] ->
     CropAnalyzer.total_area st = Float.of_int 0 /\
     CropAnalyzer.agriculture_area st = Float.of_int 0 /\
     CropAnalyzer.forestry_area st = Float.of_int 0 /\
     CropAnalyzer.total_yield_estimate st = Float.of_int 0).
Proof.
  destruct (get_statistics_full m) as (ys & Hys & ->).
  eexists. split; [reflexivity |]. cbn.
  split; [reflexivity |]. split; [apply filter_count_split |].
  intros Hnil. rewrite Hnil in *. cbn in Hys. injection Hys as <-.
  repeat split.
Qed.

Lemma statistics_counts_add_up_witness :
  exists st,
    CropAnalyzer.get_statistics CropManager.__init__ = (Ok st, CropManager.__init__) /\
    CropAnalyzer.total_crops st = 0%nat /\
    CropAnalyzer.total_area st = Float.of_int 0.
Proof.
  destruct (statistics_counts_add_up CropManager.__init__)
    as (st & Hst & Hn & _ & Hempty).
  exists st. split; [exact Hst |]. split; [exact Hn |].
  apply Hempty. reflexivity.
Defined.


Lemma get_detailed_analysis_full (now : datetime) (m : CropManager.t) :
  exists st carbons,
    CropAnalyzer.get_statistics m = (Ok st, m) /\
    map_result Forest.get_carbon_sequestration (forests_of m) = Ok carbons /\
    CropAnalyzer.get_detailed_analysis now m =
    (Ok {| CropAnalyzer.statistics := st;
           CropAnalyzer.crops_detail :=
             map (Plant.to_dict now) (CropManager._plants m);
           CropAnalyzer.recommendations :=
             expected_recommendations st (length (CropManager._plants m))
               (Float.round (Float.sum carbons) 2);
           CropAnalyzer.risk_assessment :=
             if negb (Float.eqb (CropAnalyzer.total_area st) (Float.of_int 0))
                && (length (CropManager._plants m) =? 1)%nat
             then "medium" else "low";
           CropAnalyzer.carbon_sequestration :=
             if negb (Float.eqb (CropAnalyzer.total_area st) (Float.of_int 0))
                && (0 <? CropAnalyzer.forestry_count st)%nat
             then Some (Float.round (Float.sum carbons) 2) else None |},
     m).
Proof.
  destruct (get_statistics_eq m) as (st & Hst & _ & _).
  destruct (carbon_sequestration_ok (forests_of m)) as [cs Hcs].
  exists st, cs. pose proof Hcs as Hcs0. unfold forests_of in Hcs.
  split; [exact Hst |]. split; [exact Hcs0 |].
  unfold CropAnalyzer.get_detailed_analysis, bind. rewrite Hst.
  change (CropManager.get_all_crops m) with (Ok (CropManager._plants m), m).
  cbn beta iota. unfold expected_recommendations.
  destruct (Float.eqb (CropAnalyzer.total_area st) (Float.of_int 0)).
  - reflexivity.
  - destruct ((0 <? CropAnalyzer.agriculture_count st)%nat
              && (CropAnalyzer.forestry_count st =? 0)%nat);
      destruct (0 <? CropAnalyzer.forestry_count st)%nat;
      unfold CropManager.get_crops_by_type, gets, lift, ret;
      change (lower "forestry") with "forestry"; cbn beta iota;
      rewrite ?Hcs;
      destruct (Float.ltb (Float.of_int 100) (CropAnalyzer.total_area st));
      destruct (length (CropManager._plants m) =? 1)%nat;
      try destruct (3 <=? length (CropManager._plants m))%nat;
      reflexivity.
Qed.

(** X17. [get_detailed_analysis] never raises, and its recommendations
    are, in this order: the start hint alone when the rounded total area
    is 0; otherwise the forestry hint (agriculture present, no forestry),
    the carbon figure (forestry present), the precision hint (rounded total
    above 100) and the diversification entry (one plant, or three and
    more). ['carbon_sequestration'] is set exactly with the carbon figure,
    and the risk is ["medium"] exactly for one plant of nonzero rounded
    area. *)
Theorem recommendations_in_fixed_order (now : datetime) (m : CropManager.t) :
  exists st carbons a,
    CropAnalyzer.get_statistics m = (Ok st, m) /\
    map_result Forest.get_carbon_sequestration (forests_of m) = Ok carbons /\
    CropAnalyzer.get_detailed_analysis now m = (Ok a, m) /\
    CropAnalyzer.statistics a = st /\
    CropAnalyzer.crops_detail a = map (Plant.to_dict now) (CropManager._plants m) /\
    CropAnalyzer.recommendations a
      = expected_recommendations st (length (CropManager._plants m))
          (Float.round (Float.sum carbons) 2) /\
    CropAnalyzer.carbon_sequestration a
      = (if negb (Float.eqb (CropAnalyzer.total_area st) (Float.of_int 0))
            && (0 <? CropAnalyzer.forestry_count st)%nat
         then Some (Float.round (Float.sum carbons) 2) else None) /\
    CropAnalyzer.risk_assessment a
      = (if negb (Float.eqb (CropAnalyzer.total_area st) (Float.of_int 0))
            && (length (CropManager._plants m) =? 1)%nat
         then "medium" else "low").
Proof.
  destruct (get_detailed_analysis_full now m) as (st & cs & Hst & Hcs & Ha).
  exists st, cs. eexists. split; [exact Hst |]. split; [exact Hcs |].
  split; [exact Ha |]. cbn. repeat split.
Qed.

(** X18. The recommendation list of [get_detailed_analysis] is never
    empty, never holds both the add-forestry hint and a carbon figure, and
    holds the carbon figure [v] exactly when ['carbon_sequestration'] is
    [v]. *)
Theorem analysis_always_recommends (now : datetime) (m : CropManager.t) :
  exists a,
    CropAnalyzer.get_detailed_analysis now m = (Ok a, m) /\
    CropAnalyzer.recommendations a <> [] /\
    ~ (CropAnalyzer.rec_add_forestry ∈ CropAnalyzer.recommendations a /\
       exists v, CropAnalyzer.rec_carbon v ∈ CropAnalyzer.recommendations a) /\
    (forall v,
        CropAnalyzer.rec_carbon v ∈ CropAnalyzer.recommendations a <->
        CropAnalyzer.carbon_sequestration a = Some v).
Proof.
  destruct (get_detailed_analysis_full now m) as (st & cs & Hst & _ & Ha).
  match type of Ha with _ = (Ok ?r, _) => set (a := r) in * end.
  assert (Hrecs : CropAnalyzer.recommendations a
                  = expected_recommendations st (length (CropManager._plants m))
                      (Float.round (Float.sum cs) 2)) by reflexivity.
  assert (Hcarbon : CropAnalyzer.carbon_sequestration a
                    = (if negb (Float.eqb (CropAnalyzer.total_area st) (Float.of_int 0))
                          && (0 <? CropAnalyzer.forestry_count st)%nat
                       then Some (Float.round (Float.sum cs) 2) else None))
    by reflexivity.
  clearbody a.
  destruct (get_statistics_full m) as (ys & Hys & Hfull).
  rewrite Hfull in Hst. injection Hst as Hst. subst st.
  pose proof (filter_count_split (CropManager._plants m)) as Hsplit.
  exists a. split; [exact Ha |].
  rewrite Hrecs, Hcarbon.
  unfold expected_recommendations, CropAnalyzer.rec_start,
    CropAnalyzer.rec_add_forestry, CropAnalyzer.rec_carbon,
    CropAnalyzer.rec_precision, CropAnalyzer.rec_diversify,
    CropAnalyzer.rec_good_diversification.
  cbn [CropAnalyzer.total_area CropAnalyzer.agriculture_count
       CropAnalyzer.forestry_count].
  set (na := length (filter (fun p => Plant.get_type p = "agriculture")
                       (CropManager._plants m))) in *.
  set (nf := length (filter (fun p => Plant.get_type p = "forestry")
                       (CropManager._plants m))) in *.
  destruct (Float.eqb _ _) eqn:Hz; cbn [negb andb]; cbn beta iota.
  - split; [discriminate |]. split.
    + intros [_ [v Hv]]. apply list_elem_of_singleton in Hv. discriminate.
    + intros v. split; [| discriminate].
      intros Hv. apply list_elem_of_singleton in Hv. discriminate.
  - assert (Hn : length (CropManager._plants m) <> 0%nat).
    { intros Hn. apply nil_length_inv in Hn. rewrite Hn in Hz.
      vm_compute in Hz. discriminate. }
    destruct (Nat.ltb_spec 0 nf) as [Hf | Hf].
    + replace (nf =? 0)%nat with false by (symmetry; apply Nat.eqb_neq; lia).
      rewrite andb_false_r.
      split; [| split].
      * destruct (Float.ltb _ _); destruct (_ =? 1)%nat;
          try destruct (3 <=? _)%nat; discriminate.
      * intros [Hadd _]. revert Hadd.
        destruct (Float.ltb _ _); destruct (_ =? 1)%nat;
          try destruct (3 <=? _)%nat; cbn [app];
          rewrite ?elem_of_cons, ?elem_of_nil; intuition discriminate.
      * intros v.
        destruct (Float.ltb _ _); destruct (_ =? 1)%nat;
          try destruct (3 <=? _)%nat; cbn [app];
          rewrite ?elem_of_cons, ?elem_of_nil;
          (split; [intros H | intros [= <-]; auto]);
          repeat match goal with
            | H : _ \/ _ |- _ => destruct H
            | H : False |- _ => destruct H
            end; try discriminate; congruence.
    + assert (nf = 0%nat) as Hnf by lia. rewrite Hnf in *.
      assert (Hna : (0 <? na)%nat = true) by (apply Nat.ltb_lt; lia).
      rewrite Hna. cbn [andb Nat.eqb].
      split; [| split].
      * destruct (Float.ltb _ _); destruct (_ =? 1)%nat;
          try destruct (3 <=? _)%nat; discriminate.
      * intros [_ [v Hv]]. revert Hv.
        destruct (Float.ltb _ _); destruct (_ =? 1)%nat;
          try destruct (3 <=? _)%nat; cbn [app];
          rewrite ?elem_of_cons, ?elem_of_nil; intuition discriminate.
      * intros v. split; [| discriminate].
        destruct (Float.ltb _ _); destruct (_ =? 1)%nat;
          try destruct (3 <=? _)%nat; cbn [app];
          rewrite ?elem_of_cons, ?elem_of_nil; intuition discriminate.
Qed.

Lemma analysis_always_recommends_witness :
  exists a,
    CropAnalyzer.get_detailed_analysis noon
        (snd (CropManager.add_crop noon "WoodsB" "forestry" (Float.of_int 5) "pine"
                CropManager.__init__))
      = (Ok a, snd (CropManager.add_crop noon "WoodsB" "forestry" (Float.of_int 5) "pine"
                      CropManager.__init__)) /\
    CropAnalyzer.carbon_sequestration a = Some (Float.of_int 40) /\
    CropAnalyzer.rec_carbon (Float.of_int 40) ∈ CropAnalyzer.recommendations a.
Proof.
  destruct (analysis_always_recommends noon
              (snd (CropManager.add_crop noon "WoodsB" "forestry" (Float.of_int 5) "pine"
                      CropManager.__init__)))
    as (a & Ha & _ & _ & Hiff).
  exists a. split; [exact Ha |].
  assert (Hc : CropAnalyzer.carbon_sequestration a = Some (Float.of_int 40)).
  { vm_compute in Ha. injection Ha as <-. reflexivity. }
  split; [exact Hc | now apply Hiff].
Defined.




Lemma add_rows_eq (now : datetime) (rows : list app.Crop) (m : CropManager.t) :
  app.add_rows now rows m
    = (Ok tt, {| CropManager._plants :=
                   CropManager._plants m ++ map (plant_of_row now) rows |}).
Proof.
  revert m. induction rows as [| row rows IH]; intros m.
  - cbn. rewrite app_nil_r. now destruct m.
  - cbn [app.add_rows]. unfold bind at 1.
    unfold CropManager.add_crop, bind, modify, ret.
    rewrite IH. cbn [CropManager._plants map]. rewrite <- app_assoc.
    unfold plant_of_row.
    destruct (String.eqb_spec (lower (app.crop_type row)) "agriculture") as [-> | _];
      [reflexivity |].
    destruct (String.eqb (lower (app.crop_type row)) "forestry"); reflexivity.
Qed.

(** X19. The registry the [dashboard] view fills has one plant per table
    row, in row order, with the row's name and area, status ["planted"] and
    subtype ["default"]: a forest when the row's type lowercases to
    ['forestry'] and a crop otherwise, so that every yield estimate uses the
    default rate, 12.0 or 5.0. *)
Theorem views_load_rows_with_default_rates (now : datetime) (rows : list app.Crop) :
  exists st plants,
    app.dashboard now rows = (Ok st, {| CropManager._plants := plants |}) /\
    CropAnalyzer.total_crops st = length rows /\
    Forall2
      (fun row p =>
         Plant.name p = app.name row /\
         Plant.area p = app.area row /\
         Plant.status p = "planted" /\
         Plant.subtype p = "default" /\
         Plant.get_type p
           = (if String.eqb (lower (app.crop_type row)) "forestry"
              then "forestry" else "agriculture") /\
         Plant.get_yield_estimate p
           = Ok (Float.mul (app.area row)
                   (if String.eqb (lower (app.crop_type row)) "forestry"
                    then Float.lit 120 1 else Float.lit 50 1)))
      rows plants.
Proof.
  unfold app.dashboard, bind. rewrite add_rows_eq.
  cbn [CropManager._plants CropManager.__init__ app].
  destruct (get_statistics_eq
              {| CropManager._plants := map (plant_of_row now) rows |})
    as (st & -> & Hn & _).
  exists st, (map (plant_of_row now) rows).
  split; [reflexivity |]. split.
  - rewrite Hn. cbn. apply length_map.
  - apply Forall2_fmap_r, Forall_Forall2_diag, Forall_forall.
    intros row _. unfold compose, plant_of_row.
    destruct (String.eqb (lower (app.crop_type row)) "forestry");
      (do 5 (split; [reflexivity |])); cbn [Plant.get_yield_estimate].
    + rewrite Forest_get_yield_estimate_eq. do 2 f_equal.
    + rewrite Crop_get_yield_estimate_eq. do 2 f_equal.
Qed.

Lemma filter_length_le_implied {A : Type} (P Q : A -> Prop)
    `{forall x, Decision (P x)} `{forall x, Decision (Q x)} (l : list A) :
  (forall x, P x -> Q x) -> length (filter P l) <= length (filter Q l).
Proof.
  intros HPQ. induction l as [| x l IH]; [reflexivity |].
  rewrite !filter_cons. repeat case_decide; cbn; try lia.
  exfalso. auto.
Qed.

Lemma filter_map_length {A B : Type} (f : A -> B) (P : B -> Prop) (Q : A -> Prop)
    `{forall x, Decision (P x)} `{forall x, Decision (Q x)} (l : list A) :
  (forall x, P (f x) <-> Q x) ->
  length (filter P (map f l)) = length (filter Q l).
Proof.
  intros HPQ. induction l as [| x l IH]; [reflexivity |].
  cbn [map]. rewrite !filter_cons.
  repeat case_decide; cbn; try lia; exfalso; firstorder.
Qed.

Lemma filter_length_eq_on {A : Type} (P Q : A -> Prop)
    `{forall x, Decision (P x)} `{forall x, Decision (Q x)} (l : list A) :
  Forall (fun x => P x <-> Q x) l -> length (filter P l) = length (filter Q l).
Proof.
  induction 1 as [| x l Hx _ IH]; [reflexivity |].
  rewrite !filter_cons. repeat case_decide; cbn; try lia; exfalso; tauto.
Qed.

(** X20. On the payload [analyze] builds, the Lambda handler and
    [get_statistics] agree on the number of crops, and the library's total
    area is the handler's rounded to two decimals; the handler's counts per
    type never exceed the library's and equal them when every row's type is
    exactly ['agriculture'] or ['forestry']. *)
Theorem lambda_agrees_with_statistics (now : datetime) (rows : list app.Crop) :
  let summary := snd (lambda_code.lambda_handler (Some (app.crop_data rows))) in
  exists st,
    fst (app.dashboard now rows) = Ok st /\
    lambda_code.total_crops summary = CropAnalyzer.total_crops st /\
    CropAnalyzer.total_area st = Float.round (lambda_code.total_area summary) 2 /\
    lambda_code.forestry_count summary <= CropAnalyzer.forestry_count st /\
    lambda_code.agriculture_count summary <= CropAnalyzer.agriculture_count st /\
    (Forall (fun row => app.crop_type row ∈ ["agriculture"; "forestry"]) rows ->
     lambda_code.forestry_count summary = CropAnalyzer.forestry_count st /\
     lambda_code.agriculture_count summary = CropAnalyzer.agriculture_count st).
Proof.
  intros summary. subst summary.
  unfold app.dashboard, bind. rewrite add_rows_eq.
  cbn [CropManager._plants CropManager.__init__ app].
  destruct (get_statistics_full
              {| CropManager._plants := map (plant_of_row now) rows |})
    as (ys & _ & ->).
  eexists. split; [reflexivity |].
  unfold lambda_code.lambda_handler, app.crop_data.
  cbn [snd default CropManager._plants lambda_code.total_crops
       lambda_code.total_area lambda_code.forestry_count
       lambda_code.agriculture_count CropAnalyzer.total_crops
       CropAnalyzer.total_area CropAnalyzer.forestry_count
       CropAnalyzer.agriculture_count].
  unfold id. rewrite ?length_map, ?map_map.
  assert (Hf : forall row,
             Plant.get_type (plant_of_row now row) = "forestry"
             <-> lower (app.crop_type row) = "forestry").
  { intros row. unfold plant_of_row.
    destruct (String.eqb_spec (lower (app.crop_type row)) "forestry");
      cbn; split; intros; try discriminate; try contradiction; auto. }
  assert (Ha : forall row,
             Plant.get_type (plant_of_row now row) = "agriculture"
             <-> lower (app.crop_type row) <> "forestry").
  { intros row. unfold plant_of_row.
    destruct (String.eqb_spec (lower (app.crop_type row)) "forestry");
      cbn; split; intros; try discriminate; try contradiction; auto. }
  rewrite (filter_map_length (plant_of_row now) _
             (fun row => lower (app.crop_type row) = "forestry") rows Hf).
  rewrite (filter_map_length (plant_of_row now) _
             (fun row => lower (app.crop_type row) <> "forestry") rows Ha).
  rewrite (filter_map_length
             (fun c => {| app.cd_name := Some (app.name c);
                          app.cd_type := Some (app.crop_type c);
                          app.cd_area := Some (app.area c) |})
             (fun c => app.cd_type c = Some "forestry")
             (fun row => app.crop_type row = "forestry") rows)
    by (intros row; cbn; split; congruence).
  rewrite (filter_map_length
             (fun c => {| app.cd_name := Some (app.name c);
                          app.cd_type := Some (app.crop_type c);
                          app.cd_area := Some (app.area c) |})
             (fun c => app.cd_type c = Some "agriculture")
             (fun row => app.crop_type row = "agriculture") rows)
    by (intros row; cbn; split; congruence).
  split; [reflexivity |]. split.
  - do 2 f_equal. apply map_ext. intros row. unfold plant_of_row.
    now destruct (String.eqb (lower (app.crop_type row)) "forestry").
  - split; [| split].
    + apply filter_length_le_implied. now intros row ->.
    + apply filter_length_le_implied. intros row ->. discriminate.
    + intros Hall. split.
      * apply filter_length_eq_on.
        apply (Forall_impl _ _ _ Hall). intros row Hrow.
        rewrite !elem_of_cons, elem_of_nil in Hrow.
        destruct Hrow as [-> | [-> | []]]; split; intros H;
          try reflexivity; discriminate.
      * apply filter_length_eq_on.
        apply (Forall_impl _ _ _ Hall). intros row Hrow.
        rewrite !elem_of_cons, elem_of_nil in Hrow.
        destruct Hrow as [-> | [-> | []]]; split; intros H;
          try reflexivity; try discriminate. now contradiction H.
Qed.

Lemma lambda_agrees_with_statistics_witness :
  let rows :=
    [ {| app.name := "FieldA"; app.crop_type := "agriculture";
         app.area := Float.of_int 10 |};
      {| app.name := "WoodsB"; app.crop_type := "forestry";
         app.area := Float.of_int 5 |} ] in
  exists st,
    fst (app.dashboard noon rows) = Ok st /\
    lambda_code.forestry_count
      (snd (lambda_code.lambda_handler (Some (app.crop_data rows))))
      = CropAnalyzer.forestry_count st /\
    lambda_code.agriculture_count
      (snd (lambda_code.lambda_handler (Some (app.crop_data rows))))
      = CropAnalyzer.agriculture_count st.
Proof.
  intros rows.
  destruct (lambda_agrees_with_statistics noon rows)
    as (st & Hst & _ & _ & _ & _ & Heq).
  exists st. split; [exact Hst |]. apply Heq.
  repeat constructor.
Defined.

(** X21. [get_season_recommendation] never raises. For a month from 1 to
    12 it returns that month's entry, whose season name ends with the
    season [get_seasonal_advice] starts with; for any other month it falls
    back to January's entry (["Winter"]) while [get_seasonal_advice]
    returns the generic string. *)
Theorem seasonal_lookups_agree (now : datetime) (override : option Z)
    (m : CropManager.t) :
  let mo := effective_month now override in
  exists entry advice,
    utils.get_season_recommendation now override = Ok entry /\
    CropAnalyzer.get_seasonal_advice now override m = (Ok advice, m) /\
    ((1 <= mo <= 12)%Z ->
     utils.recommendations !! mo = Some entry /\
     exists s, s ∈ season_names /\
       ends_with s (utils.season entry) = true /\
       String.prefix s advice = true) /\
    ((mo < 1 \/ 12 < mo)%Z ->
     utils.recommendations !! 1%Z = Some entry /\
     utils.season entry = "Winter" /\
     advice = advice_generic).
Proof.
  intros mo.
  unfold utils.get_season_recommendation, CropAnalyzer.get_seasonal_advice,
    utils.int_dict_item, utils.int_dict_get, utils.now_month, ret.
  change (match override with None => month now | Some m0 => m0 end) with mo.
  change (utils.recommendations !! 1%Z) with
    (Some {| utils.season := "Winter";
             utils.activities := ["Plan crop rotation"; "Order seeds"; "Maintain equipment"; "Prune fruit trees"]%string;
             utils.crops_to_plant := ["Winter vegetables in greenhouse"]%string;
             utils.forestry_tasks := ["Tree pruning"; "Firewood preparation"]%string |}).
  cbv beta iota.
  eexists _, _. split; [reflexivity |]. split; [reflexivity |].
  clearbody mo. split.
  - intros Hmo.
    assert (mo = 1 \/ mo = 2 \/ mo = 3 \/ mo = 4 \/ mo = 5 \/ mo = 6 \/ mo = 7
            \/ mo = 8 \/ mo = 9 \/ mo = 10 \/ mo = 11 \/ mo = 12)%Z
      as Hcases by lia.
    repeat destruct Hcases as [-> | Hcases]; try subst mo;
      (split; [vm_compute; reflexivity |]).
    all: first
      [ exists "Winter"; split; [unfold season_names; rewrite !elem_of_cons; tauto |];
        split; vm_compute; reflexivity
      | exists "Spring"; split; [unfold season_names; rewrite !elem_of_cons; tauto |];
        split; vm_compute; reflexivity
      | exists "Summer"; split; [unfold season_names; rewrite !elem_of_cons; tauto |];
        split; vm_compute; reflexivity
      | exists "Autumn"; split; [unfold season_names; rewrite !elem_of_cons; tauto |];
        split; vm_compute; reflexivity ].
  - intros Hout.
    assert (Hnone : utils.recommendations !! mo = None).
    { unfold utils.recommendations.
      cbn [list_to_map foldr fst snd uncurry].
      rewrite !lookup_insert_ne by lia. apply lookup_empty. }
    rewrite Hnone. cbn [default].
    split; [reflexivity |]. split; [reflexivity |].
    now apply first_advice_out_of_range.
Qed.

Lemma seasonal_lookups_agree_witness :
  (exists entry advice,
     utils.get_season_recommendation noon (Some 9%Z) = Ok entry /\
     fst (CropAnalyzer.get_seasonal_advice noon (Some 9%Z) CropManager.__init__)
       = Ok advice /\
     utils.season entry = "Early Autumn" /\
     String.prefix "Autumn" advice = true) /\
  (exists entry,
     utils.get_season_recommendation noon (Some 13%Z) = Ok entry /\
     utils.season entry = "Winter").
Proof.
  split.
  - destruct (seasonal_lookups_agree noon (Some 9%Z) CropManager.__init__)
      as (entry & advice & He & Ha & Hin & _).
    exists entry, advice. split; [exact He |]. split; [now rewrite Ha |].
    destruct Hin as [Hentry _]; [cbn; lia |].
    vm_compute in Hentry. injection Hentry as <-.
    vm_compute in Ha. injection Ha as <-. split; reflexivity.
  - destruct (seasonal_lookups_agree noon (Some 13%Z) CropManager.__init__)
      as (entry & advice & He & _ & _ & Hout).
    exists entry. split; [exact He |]. apply Hout. cbn. lia.
Defined.

Lemma set_status_keeps_area (value : string) (p : Plant.t) :
  Plant.area (snd (Plant.set_status value p)) = Plant.area p.
Proof.
  unfold Plant.set_status, Plant.inherited, BasePlant.set_status.
  destruct (bool_decide (value ∈ BasePlant.valid_statuses)); cbn.
  - unfold Plant.area. now rewrite Plant_base_with_base.
  - now rewrite Plant_with_base_base.
Qed.

(** X22. A plant added with an area [> 0] keeps an area [> 0] through
    every sequence of [area] and [status] assignments, accepted or refused,
    whose area values are numbers (not NaN). *)
Theorem positive_area_is_kept
    (now : datetime) (name plant_type : string) (area : float)
    (subtype : string) (m : CropManager.t) (p p' : Plant.t) :
  Float.ltb (Float.of_int 0) area = true ->
  fst (CropManager.add_crop now name plant_type area subtype m) = Ok p ->
  rtc numeric_setter_step p p' ->
  Float.ltb (Float.of_int 0) (Plant.area p') = true.
Proof.
  intros Hpos Hadd Hsteps.
  assert (H0 : Float.ltb (Float.of_int 0) (Plant.area p) = true).
  { now rewrite (add_crop_area _ _ _ _ _ _ _ Hadd). }
  clear Hadd. induction Hsteps as [| p q r Hstep _ IH]; [exact H0 |].
  apply IH. destruct Hstep as [value p Hnum | value p].
  - now apply set_area_keeps_positive.
  - now rewrite set_status_keeps_area.
Qed.

Lemma positive_area_is_kept_witness :
  Float.ltb (Float.of_int 0)
    (Plant.area
       (snd (Plant.set_area (Float.of_int (-3))
          (snd (Plant.set_area (Float.lit 25 1) wheat_field)))))
  = true.
Proof.
  apply (positive_area_is_kept noon "FieldA" "agriculture" (Float.of_int 10)
           "wheat" CropManager.__init__ wheat_field).
  - reflexivity.
  - reflexivity.
  - eapply rtc_l;
      [apply (nstep_set_area (Float.lit 25 1)); vm_compute; discriminate |].
    eapply rtc_l;
      [apply (nstep_set_area (Float.of_int (-3))); vm_compute; discriminate |].
    apply rtc_refl.
Defined.

(** X23. In every registry built from [CropManager()] with [add_crop] and
    [remove_crop], each plant has status ["planted"], a lowercase subtype
    and no organic flag. *)
Theorem built_plants_as_constructed (m : CropManager.t) :
  built m ->
  Forall
    (fun p =>
       Plant.status p = "planted" /\
       lower (Plant.subtype p) = Plant.subtype p /\
       is_organic p = false)
    (CropManager._plants m).
Proof.
  induction 1 as [| now name plant_type area subtype m Hm IH | name m Hm IH].
  - constructor.
  - destruct (add_crop_result now name plant_type area subtype m)
      as (q & -> & Hkind).
    cbn [snd CropManager._plants]. apply Forall_app. split; [exact IH |].
    apply Forall_singleton.
    destruct Hkind as [-> | ->]; cbn; rewrite lower_idempotent; auto.
  - unfold CropManager.remove_crop.
    destruct (CropManager.remove_first name (CropManager._plants m))
      as [rest |] eqn:Hrm; cbn [snd CropManager._plants]; [| exact IH].
    apply Forall_forall. intros p Hp.
    apply (proj1 (Forall_forall _ _) IH).
    now apply (remove_first_subset name _ rest).
Qed.

Lemma built_plants_as_constructed_witness :
  Forall
    (fun p =>
       Plant.status p = "planted" /\
       lower (Plant.subtype p) = Plant.subtype p /\
       is_organic p = false)
    (CropManager._plants
       (snd (CropManager.remove_crop "plot"
          (snd (CropManager.add_crop noon "WoodsB" "Forestry" (Float.of_int 5) "PINE"
             (snd (CropManager.add_crop noon "plot" "agriculture" (Float.of_int 10) "Wheat"
                CropManager.__init__))))))).
Proof.
  apply built_plants_as_constructed.
  apply built_remove, built_add, built_add, built_init.
Defined.
